(** * SmartFilter account service: users, credits and plans

    A shallow embedding of [src/models/user.py] (the [User] row and its
    methods) and of [src/routes/user.py] (the request handlers), followed by
    the properties of the account and credit state machine.

    Conventions of the embedding.
    - A Python [str] is a [string] whose characters are code points below
      256; text outside Latin-1 is outside the model.
    - A parsed JSON value is a [json], whose numbers are integers; what the
      two methods of [User] that compute on credits do with a number that
      has a fraction is in [Num], on Python's numbers.
    - A Python exception is a value of [exn]; every handler body runs in the
      monad [M] of a database session that may raise.
    - The table of users is a list of rows in insertion order.  A request
      works on a session; only what was committed survives the request. *)

From Stdlib Require Import ZArith List String Ascii Bool Lia.
From Stdlib Require Import DecimalString Floats.
Import ListNotations.

Open Scope string_scope.
Open Scope Z_scope.

(** ** Python strings *)

Module Py.

(** [str.isspace] on one character: the white space of Python below code
    point 256. *)
Definition isspace (c : ascii) : bool :=
  let n := N_of_ascii c in
  ((9 <=? n) && (n <=? 13) || (28 <=? n) && (n <=? 32)
   || (n =? 133) || (n =? 160))%N.

(** [str.lstrip()] *)
Fixpoint lstrip (s : string) : string :=
  match s with
  | String c s' => if isspace c then lstrip s' else s
  | EmptyString => EmptyString
  end.

(** [str.rstrip()] *)
Fixpoint rstrip (s : string) : string :=
  match s with
  | String c s' =>
      match rstrip s' with
      | EmptyString => if isspace c then EmptyString else String c EmptyString
      | r => String c r
      end
  | EmptyString => EmptyString
  end.

(** [str.strip()] *)
Definition strip (s : string) : string := rstrip (lstrip s).

(** [str.lower()] on one character: A-Z and the upper case letters of
    Latin-1 (192-222 but the multiplication sign 215). *)
Definition lower_char (c : ascii) : ascii :=
  let n := N_of_ascii c in
  if ((65 <=? n) && (n <=? 90)
      || (192 <=? n) && (n <=? 222) && negb (n =? 215))%N
  then ascii_of_N (n + 32) else c.

(** [str.lower()] *)
Fixpoint lower (s : string) : string :=
  match s with
  | String c s' => String (lower_char c) (lower s')
  | EmptyString => EmptyString
  end.

(** [len(s)] *)
Definition len (s : string) : Z := Z.of_nat (String.length s).

(** [str(n)] for an integer *)
Definition str_of_int (n : Z) : string :=
  NilZero.string_of_int (Z.to_int n).

End Py.

(** ** Regular expressions, as far as [validate_email] needs them

    [re.match] succeeds exactly when some prefix of the subject is matched by
    the pattern.  The pattern of [validate_email] ends in [$], so the match
    has to reach the end of the subject, or the line feed that ends it. *)

Module Re.

Inductive t : Type :=
| Void                      (* matches nothing *)
| Eps                       (* matches the empty string *)
| Class (p : ascii -> bool) (* one character of a class *)
| Cat (r1 r2 : t)
| Alt (r1 r2 : t)
| Star (r : t).

Definition Plus (r : t) : t := Cat r (Star r).
Definition Opt (r : t) : t := Alt Eps r.

Fixpoint nullable (r : t) : bool :=
  match r with
  | Void => false
  | Eps => true
  | Class _ => false
  | Cat r1 r2 => nullable r1 && nullable r2
  | Alt r1 r2 => nullable r1 || nullable r2
  | Star _ => true
  end.

(** Brzozowski derivative of [r] by the character [c]. *)
Fixpoint deriv (c : ascii) (r : t) : t :=
  match r with
  | Void => Void
  | Eps => Void
  | Class p => if p c then Eps else Void
  | Cat r1 r2 =>
      if nullable r1
      then Alt (Cat (deriv c r1) r2) (deriv c r2)
      else Cat (deriv c r1) r2
  | Alt r1 r2 => Alt (deriv c r1) (deriv c r2)
  | Star r1 => Cat (deriv c r1) (Star r1)
  end.

(** [fullmatch r s]: the whole of [s] is in the language of [r]. *)
Fixpoint fullmatch (r : t) (s : string) : bool :=
  match s with
  | EmptyString => nullable r
  | String c s' => fullmatch (deriv c r) s'
  end.

Definition between (lo hi : ascii) (c : ascii) : bool :=
  ((N_of_ascii lo <=? N_of_ascii c) && (N_of_ascii c <=? N_of_ascii hi))%N.

Definition one_of (cs : string) (c : ascii) : bool :=
  existsb (Ascii.eqb c) (list_ascii_of_string cs).

Definition Chr (a : ascii) : t := Class (Ascii.eqb a).

(** The anchor [$] without [re.MULTILINE]: the end of the subject, or just
    before a line feed that is its last character. *)
Definition Dollar : t := Opt (Chr "010"%char).

End Re.

(** ** JSON values and Python's view of them *)

Set Warnings "-register-all".

Inductive json : Type :=
| JNull
| JBool (b : bool)
| JInt (n : Z)
| JStr (s : string)
| JArr (l : list json)
| JObj (kvs : list (string * json)).

(** Exceptions the handlers can meet. *)
Inductive exn : Type :=
| AttributeError
| TypeError
| KeyError
| IntegrityError
| OverflowError.

Inductive outcome (A : Type) : Type :=
| Ok (a : A)
| Raise (e : exn).
Arguments Ok {A} a.
Arguments Raise {A} e.

(** Lookup in a dict kept as an association list. *)
Fixpoint assoc (k : string) (kvs : list (string * json)) : option json :=
  match kvs with
  | [] => None
  | (k', v) :: rest => if String.eqb k k' then Some v else assoc k rest
  end.

(** Truth value of a Python object that came out of JSON. *)
Definition truthy (v : json) : bool :=
  match v with
  | JNull => false
  | JBool b => b
  | JInt n => negb (n =? 0)
  | JStr s => negb (String.eqb s "")
  | JArr l => match l with [] => false | _ => true end
  | JObj kvs => match kvs with [] => false | _ => true end
  end.

(** [data.get(key)]: [None] for a missing key; only a dict has [get]. *)
Definition dict_get (data : json) (key : string) : outcome json :=
  match data with
  | JObj kvs => Ok (match assoc key kvs with Some v => v | None => JNull end)
  | _ => Raise AttributeError
  end.

(** [data.get(key, default)] *)
Definition dict_get_default (data : json) (key : string) (default : json)
  : outcome json :=
  match data with
  | JObj kvs => Ok (match assoc key kvs with Some v => v | None => default end)
  | _ => Raise AttributeError
  end.

(** [data[key]] *)
Definition dict_item (data : json) (key : string) : outcome json :=
  match data with
  | JObj kvs => match assoc key kvs with Some v => Ok v | None => Raise KeyError end
  | _ => Raise TypeError
  end.

(** [v.strip()] and [v.lower()]: methods of [str] only. *)
Definition py_strip (v : json) : outcome string :=
  match v with JStr s => Ok (Py.strip s) | _ => Raise AttributeError end.

Definition py_lower (v : json) : outcome string :=
  match v with JStr s => Ok (Py.lower s) | _ => Raise AttributeError end.

(** [len(v)] *)
Definition py_len (v : json) : outcome Z :=
  match v with
  | JStr s => Ok (Py.len s)
  | JArr l => Ok (Z.of_nat (List.length l))
  | JObj kvs => Ok (Z.of_nat (List.length kvs))
  | _ => Raise TypeError
  end.

(** The number a value stands for in [amount <= 0] and [credits += amount]:
    [bool] is a subclass of [int]. *)
Definition py_int (v : json) : outcome Z :=
  match v with
  | JInt n => Ok n
  | JBool b => Ok (if b then 1 else 0)
  | _ => Raise TypeError
  end.

(** [str(v)] inside an f-string, for the values that reach it. *)
Definition py_str (v : json) : string :=
  match v with
  | JInt n => Py.str_of_int n
  | JBool true => "True"
  | JBool false => "False"
  | JStr s => s
  | _ => ""
  end.

(** ** What the service takes from its libraries

    [werkzeug.security] hashes a password with a salt it draws itself and
    checks a password against a hash; [datetime.isoformat] prints an
    instant.  The service relies on nothing more about them. *)

Class Externals : Type := {
  generate_password_hash : string -> string -> string;  (* salt, password *)
  check_password_hash : string -> string -> bool;       (* hash, password *)
  isoformat : Z -> string
}.

(** What a request finds around it: the clock ([datetime.utcnow()]) and the
    salt the hashing draws. *)
Record Env : Type := { now : Z; salt : string }.

(** ** models/user.py *)

Module User.

Record t : Type := mk {
  id : Z;
  name : string;
  email : string;
  password_hash : string;
  credits : Z;
  plan_type : string;
  created_at : option Z;
  last_login : option Z;
  is_active : bool
}.

Definition with_password_hash (self : t) (h : string) : t :=
  mk (id self) (name self) (email self) h (credits self) (plan_type self)
     (created_at self) (last_login self) (is_active self).

Definition with_credits (self : t) (c : Z) : t :=
  mk (id self) (name self) (email self) (password_hash self) c
     (plan_type self) (created_at self) (last_login self) (is_active self).

Definition with_plan_type (self : t) (p : string) : t :=
  mk (id self) (name self) (email self) (password_hash self) (credits self)
     p (created_at self) (last_login self) (is_active self).

Definition with_last_login (self : t) (d : option Z) : t :=
  mk (id self) (name self) (email self) (password_hash self) (credits self)
     (plan_type self) (created_at self) d (is_active self).

Definition with_id (self : t) (i : Z) : t :=
  mk i (name self) (email self) (password_hash self) (credits self)
     (plan_type self) (created_at self) (last_login self) (is_active self).

(** [User(name=name, email=email)].  The column defaults ([credits],
    [plan_type], [created_at], [is_active]) are filled in by the INSERT;
    no handler reads them before the commit, so the embedding fills them in
    here, with the clock of the request.  The primary key is given by
    [session_add]; the hash is set by [set_password]. *)
Definition init (env : Env) (name email : string) : t :=
  mk 0 name email "" 100 "free" (Some (now env)) None true.

(** [set_password]: only a [str] can be hashed. *)
Definition set_password `{Externals} (env : Env) (self : t) (password : json)
  : outcome t :=
  match password with
  | JStr p => Ok (with_password_hash self (generate_password_hash (salt env) p))
  | _ => Raise AttributeError
  end.

(** [check_password] *)
Definition check_password `{Externals} (self : t) (password : json)
  : outcome bool :=
  match password with
  | JStr p => Ok (check_password_hash (password_hash self) p)
  | _ => Raise AttributeError
  end.

(** [use_credit]: the answer and the object after the call. *)
Definition use_credit (self : t) : bool * t :=
  if credits self >? 0
  then (true, with_credits self (credits self - 1))
  else (false, self).

(** [add_credits] *)
Definition add_credits (self : t) (amount : Z) : t :=
  with_credits self (credits self + amount).

Definition iso_or_none `{Externals} (d : option Z) : json :=
  match d with
  | Some x => JStr (isoformat x)
  | None => JNull
  end.

(** [to_dict] *)
Definition to_dict `{Externals} (self : t) : json :=
  JObj [ ("id", JInt (id self));
         ("name", JStr (name self));
         ("email", JStr (email self));
         ("credits", JInt (credits self));
         ("plan_type", JStr (plan_type self));
         ("created_at", iso_or_none (created_at self));
         ("last_login", iso_or_none (last_login self));
         ("is_active", JBool (is_active self)) ].

End User.

(** ** The database session

    [committed] is the table as the database holds it, [rows] the table as
    the session sees it: the committed rows with the changes made to their
    objects, then the rows added and not yet inserted. *)

(** The integers the driver of the store binds as INTEGER: 64 bits, signed.
    A Python [int] outside this range makes the statement that binds it
    raise [OverflowError]. *)
Definition integer_min : Z := - 2 ^ 63.
Definition integer_max : Z := 2 ^ 63 - 1.

Definition storable (n : Z) : bool :=
  (integer_min <=? n) && (n <=? integer_max).

Record Session : Type := {
  committed : list User.t;
  rows : list User.t;
  bound : list Z   (* the credits that the UPDATEs of the commit will bind *)
}.

Definition M (A : Type) : Type := Session -> outcome A * Session.

Definition ret {A : Type} (a : A) : M A := fun s => (Ok a, s).

Definition bind {A B : Type} (m : M A) (k : A -> M B) : M B :=
  fun s =>
    match m s with
    | (Ok a, s') => k a s'
    | (Raise e, s') => (Raise e, s')
    end.

Definition lift {A : Type} (o : outcome A) : M A := fun s => (o, s).

Notation "x <- m ;; k" := (bind m (fun x => k))
  (at level 61, m at next level, right associativity).
Notation "m ;; k" := (bind m (fun _ => k))
  (at level 61, right associativity).

(** Primary key of the next row. *)
Definition next_id (table : list User.t) : Z :=
  1 + fold_right (fun u m => Z.max (User.id u) m) 0 table.

(** The table with the row of [u]'s key replaced by [u]. *)
Definition replace_row (table : list User.t) (u : User.t) : list User.t :=
  map (fun r => if User.id r =? User.id u then u else r) table.

(** Number of rows with the given email. *)
Definition count_email (table : list User.t) (e : string) : nat :=
  List.length (filter (fun u => String.eqb (User.email u) e) table).

(** The UNIQUE constraint on [email], checked for each row to insert
    against the rows before it. *)
Fixpoint insert_ok (old new : list User.t) : bool :=
  match new with
  | [] => true
  | u :: rest =>
      negb (existsb (fun r => String.eqb (User.email r) (User.email u)) old)
      && insert_ok (old ++ [u]) rest
  end.

(** The row with the given primary key, and the first row with the given
    email. *)
Definition row_of (table : list User.t) (user_id : Z) : option User.t :=
  find (fun u => User.id u =? user_id) table.

Definition row_by_email (table : list User.t) (e : string) : option User.t :=
  find (fun u => String.eqb (User.email u) e) table.

(** [User.query.get(user_id)].  The key is bound in the SELECT, which
    raises for a key outside the INTEGER range; the keys of the rows are
    inside it, so such a key is no row's. *)
Definition query_get (user_id : Z) : M (option User.t) :=
  fun s =>
    match row_of (rows s) user_id with
    | Some u => (Ok (Some u), s)
    | None =>
        if storable user_id then (Ok None, s) else (Raise OverflowError, s)
    end.

(** [User.query.filter_by(email=email).first()] *)
Definition query_filter_by_email_first (e : string) : M (option User.t) :=
  fun s => (Ok (row_by_email (rows s) e), s).

(** An assignment to an attribute of a loaded object: the session's copy of
    the row changes. *)
Definition session_write (u : User.t) : M unit :=
  fun s => (Ok tt, {| committed := committed s;
                      rows := replace_row (rows s) u;
                      bound := bound s |}).

(** The assignment to [credits] inside [add_credits]: the session's copy of
    the row changes, and the commit will bind the sum.  ([use_credit] takes
    one from a positive value that the column held, which stays inside the
    range.) *)
Definition session_write_credits (u : User.t) : M unit :=
  fun s => (Ok tt, {| committed := committed s;
                      rows := replace_row (rows s) u;
                      bound := User.credits u :: bound s |}).

(** [db.session.add(user)]; gives back the object with the key it will be
    inserted under. *)
Definition session_add (u : User.t) : M User.t :=
  fun s =>
    let u' := User.with_id u (next_id (rows s)) in
    (Ok u', {| committed := committed s; rows := rows s ++ [u'];
               bound := bound s |}).

(** [db.session.commit()]: the changed rows are updated, which raises when
    a value to bind is outside the INTEGER range; the pending rows are
    inserted, which the UNIQUE constraint can refuse; then the session's
    view becomes the table. *)
Definition session_commit : M unit :=
  fun s =>
    if negb (forallb storable (bound s)) then (Raise OverflowError, s)
    else
      let n := List.length (committed s) in
      if insert_ok (firstn n (rows s)) (skipn n (rows s))
      then (Ok tt, {| committed := rows s; rows := rows s; bound := [] |})
      else (Raise IntegrityError, s).

(** [db.session.rollback()] *)
Definition session_rollback (s : Session) : Session :=
  {| committed := committed s; rows := committed s; bound := [] |}.

(** ** Responses and the frame of a handler *)

Definition Response : Type := (json * Z)%type.

Definition body (r : Response) : json := fst r.
Definition status (r : Response) : Z := snd r.

Definition jsonify (kvs : list (string * json)) : json := JObj kvs.

Definition error (msg : string) (code : Z) : Response :=
  (jsonify [("error", JStr msg)], code).

Definition Handler : Type := Session -> Response * Session.

(** [try: ... except Exception as e: ...] around a handler body. *)
Definition try_except (body : M Response) (handler : Session -> Response * Session)
  : Handler :=
  fun s =>
    match body s with
    | (Ok r, s') => (r, s')
    | (Raise _, s') => handler s'
    end.

(** One request against the table [st]: the session starts from the table
    and is dropped when the request ends, so that only committed changes
    are kept. *)
Definition serve (h : Handler) (st : list User.t) : Response * list User.t :=
  let (r, s) := h {| committed := st; rows := st; bound := [] |} in
  (r, committed s).

(** ** routes/user.py *)

(** The pattern [^[a-zA-Z0-9._%+-]+@[a-zA-Z0-9.-]+\.[a-zA-Z]{2,}$]. *)
Definition email_pattern : Re.t :=
  let alpha c := Re.between "a" "z" c || Re.between "A" "Z" c in
  let alnum c := alpha c || Re.between "0" "9" c in
  let local_part c := alnum c || Re.one_of "._%+-" c in
  let domain c := alnum c || Re.one_of ".-" c in
  Re.Cat (Re.Plus (Re.Class local_part))
    (Re.Cat (Re.Chr "@")
       (Re.Cat (Re.Plus (Re.Class domain))
          (Re.Cat (Re.Chr ".")
             (Re.Cat (Re.Class alpha)
                (Re.Cat (Re.Class alpha)
                   (Re.Cat (Re.Star (Re.Class alpha)) Re.Dollar)))))).

(** [validate_email] *)
Definition validate_email (email : string) : bool :=
  Re.fullmatch email_pattern email.

(** [validate_password] *)
Definition validate_password (password : json) : outcome (bool * string) :=
  match py_len password with
  | Ok n =>
      if n <? 6
      then Ok (false, "Password must be at least 6 characters long")
      else Ok (true, "Password is valid")
  | Raise e => Raise e
  end.

Definition required_fields : list string := ["name"; "email"; "password"].

(** The loop over [required_fields]: the first field whose value is
    missing or false, if there is one. *)
Fixpoint first_missing (data : json) (fields : list string)
  : outcome (option string) :=
  match fields with
  | [] => Ok None
  | field :: rest =>
      match dict_get data field with
      | Ok v => if truthy v then first_missing data rest else Ok (Some field)
      | Raise e => Raise e
      end
  end.

Section Routes.

Context `{Externals}.

(** [register] *)
Definition register (env : Env) (data : json) : Handler :=
  try_except
    (missing <- lift (first_missing data required_fields) ;;
     match missing with
     | Some field => ret (error (field ++ " is required") 400)
     | None =>
         v_name <- lift (dict_item data "name") ;;
         name <- lift (py_strip v_name) ;;
         v_email <- lift (dict_item data "email") ;;
         stripped <- lift (py_strip v_email) ;;
         let email := Py.lower stripped in
         password <- lift (dict_item data "password") ;;
         if negb (validate_email email)
         then ret (error "Invalid email format" 400)
         else
           checked <- lift (validate_password password) ;;
           let (is_valid, message) := checked : bool * string in
           if negb is_valid
           then ret (error message 400)
           else
             existing_user <- query_filter_by_email_first email ;;
             match existing_user with
             | Some _ => ret (error "Email already registered" 409)
             | None =>
                 let user := User.init env name email in
                 user <- lift (User.set_password env user password) ;;
                 user <- session_add user ;;
                 session_commit ;;
                 ret (jsonify [("message", JStr "Account created successfully");
                               ("user", User.to_dict user)], 201)
             end
     end)
    (fun s => (error "Registration failed" 500, session_rollback s)).

(** [login] *)
Definition login (env : Env) (data : json) : Handler :=
  try_except
    (v_email <- lift (dict_get data "email") ;;
     v_password <- lift (dict_get data "password") ;;
     if negb (truthy v_email) || negb (truthy v_password)
     then ret (error "Email and password are required" 400)
     else
       v_email <- lift (dict_item data "email") ;;
       stripped <- lift (py_strip v_email) ;;
       let email := Py.lower stripped in
       password <- lift (dict_item data "password") ;;
       user <- query_filter_by_email_first email ;;
       match user with
       | None => ret (error "Invalid email or password" 401)
       | Some user =>
           password_ok <- lift (User.check_password user password) ;;
           if negb password_ok
           then ret (error "Invalid email or password" 401)
           else if negb (User.is_active user)
           then ret (error "Account is deactivated" 401)
           else
             let user := User.with_last_login user (Some (now env)) in
             session_write user ;;
             session_commit ;;
             ret (jsonify [("message", JStr "Login successful");
                           ("user", User.to_dict user)], 200)
       end)
    (fun s => (error "Login failed" 500, s)).

(** [get_profile] *)
Definition get_profile (user_id : Z) : Handler :=
  try_except
    (user <- query_get user_id ;;
     match user with
     | None => ret (error "User not found" 404)
     | Some user => ret (jsonify [("user", User.to_dict user)], 200)
     end)
    (fun s => (error "Failed to get profile" 500, s)).

(** [use_credit] *)
Definition use_credit (user_id : Z) : Handler :=
  try_except
    (user <- query_get user_id ;;
     match user with
     | None => ret (error "User not found" 404)
     | Some user =>
         let (used, user) := User.use_credit user in
         session_write user ;;
         if used
         then
           session_commit ;;
           ret (jsonify [("message", JStr "Credit used successfully");
                         ("remaining_credits", JInt (User.credits user))], 200)
         else ret (error "No credits remaining" 400)
     end)
    (fun s => (error "Failed to use credit" 500, session_rollback s)).

(** [add_credits] *)
Definition add_credits (user_id : Z) (data : json) : Handler :=
  try_except
    (amount <- lift (dict_get_default data "amount" (JInt 0)) ;;
     n <- lift (py_int amount) ;;
     if n <=? 0
     then ret (error "Invalid credit amount" 400)
     else
       user <- query_get user_id ;;
       match user with
       | None => ret (error "User not found" 404)
       | Some user =>
           let user := User.add_credits user n in
           session_write_credits user ;;
           session_commit ;;
           ret (jsonify [("message",
                          JStr (py_str amount ++ " credits added successfully"));
                         ("total_credits", JInt (User.credits user))], 200)
       end)
    (fun s => (error "Failed to add credits" 500, session_rollback s)).

(** [check_credits] *)
Definition check_credits (user_id : Z) : Handler :=
  try_except
    (user <- query_get user_id ;;
     match user with
     | None => ret (error "User not found" 404)
     | Some user =>
         ret (jsonify [("user_id", JInt (User.id user));
                       ("credits", JInt (User.credits user));
                       ("plan_type", JStr (User.plan_type user))], 200)
     end)
    (fun s => (error "Failed to check credits" 500, s)).

(** [new_plan in ['free', 'pro', 'premium']] *)
Definition is_plan (new_plan : string) : bool :=
  existsb (String.eqb new_plan) ["free"; "pro"; "premium"].

(** [upgrade_plan] *)
Definition upgrade_plan (user_id : Z) (data : json) : Handler :=
  try_except
    (v_plan <- lift (dict_get_default data "plan_type" (JStr "")) ;;
     new_plan <- lift (py_lower v_plan) ;;
     if negb (is_plan new_plan)
     then ret (error "Invalid plan type" 400)
     else
       user <- query_get user_id ;;
       match user with
       | None => ret (error "User not found" 404)
       | Some user =>
           let user := User.with_plan_type user new_plan in
           session_write user ;;
           user <- (if String.eqb new_plan "pro"
                    then
                      let user := User.add_credits user 500 in
                      session_write_credits user ;; ret user
                    else if String.eqb new_plan "premium"
                    then
                      let user := User.add_credits user 1000 in
                      session_write_credits user ;; ret user
                    else ret user) ;;
           session_commit ;;
           ret (jsonify [("message", JStr ("Plan upgraded to " ++ new_plan));
                         ("user", User.to_dict user)], 200)
       end)
    (fun s => (error "Failed to upgrade plan" 500, session_rollback s)).

(** [health_check] *)
Definition health_check : Handler :=
  fun s => ((jsonify [("status", JStr "healthy");
                      ("service", JStr "SmartFilter Auth API")], 200), s).

(** ** The service as a state machine *)

Inductive Request : Type :=
| Register (data : json)
| Login (data : json)
| GetProfile (user_id : Z)
| UseCredit (user_id : Z)
| AddCredits (user_id : Z) (data : json)
| CheckCredits (user_id : Z)
| UpgradePlan (user_id : Z) (data : json)
| HealthCheck.

Definition route (env : Env) (req : Request) : Handler :=
  match req with
  | Register data => register env data
  | Login data => login env data
  | GetProfile user_id => get_profile user_id
  | UseCredit user_id => use_credit user_id
  | AddCredits user_id data => add_credits user_id data
  | CheckCredits user_id => check_credits user_id
  | UpgradePlan user_id data => upgrade_plan user_id data
  | HealthCheck => health_check
  end.

(** One request handled against the table. *)
Definition handle (env : Env) (req : Request) (st : list User.t)
  : Response * list User.t :=
  serve (route env req) st.

(** The tables the service can reach from the empty one. *)
Inductive reachable : list User.t -> Prop :=
| reach_empty : reachable []
| reach_step (env : Env) (req : Request) (st : list User.t) :
    reachable st -> reachable (snd (handle env req st)).

End Routes.

(** ** Python numbers under the methods of [User]

    The column [credits] is declared INTEGER, but neither the route nor the
    method [add_credits] asks the amount to be an [int]: JSON gives a
    [float] for a number written with a fraction or an exponent, and the
    methods compute on it as Python does, on IEEE 754 doubles. *)

Module Num.

Inductive t : Type :=
| Int (n : Z)
| Float (f : float).

(** [float(n)] for an [int]: the nearest double, ties to even; an [int]
    beyond the doubles raises. *)
Definition float_of_int (n : Z) : outcome float :=
  let f := SF2Prim (binary_normalize prec emax n 0 false) in
  if PrimFloat.is_infinity f then Raise OverflowError else Ok f.

(** [x <= 0] and [x > 0] and [x < 0] *)
Definition le_zero (x : t) : bool :=
  match x with
  | Int n => n <=? 0
  | Float f => PrimFloat.leb f 0
  end.

Definition gt_zero (x : t) : bool :=
  match x with
  | Int n => n >? 0
  | Float f => PrimFloat.ltb 0 f
  end.

Definition lt_zero (x : t) : bool :=
  match x with
  | Int n => n <? 0
  | Float f => PrimFloat.ltb f 0
  end.

(** [x - 1] *)
Definition sub_one (x : t) : t :=
  match x with
  | Int n => Int (n - 1)
  | Float f => Float (PrimFloat.sub f 1)
  end.

(** [x + y]: an [int] meets a [float] as a [float]. *)
Definition add (x y : t) : outcome t :=
  match x, y with
  | Int a, Int b => Ok (Int (a + b))
  | Float f, Float g => Ok (Float (PrimFloat.add f g))
  | Int a, Float g =>
      match float_of_int a with
      | Ok f => Ok (Float (PrimFloat.add f g))
      | Raise e => Raise e
      end
  | Float f, Int b =>
      match float_of_int b with
      | Ok g => Ok (Float (PrimFloat.add f g))
      | Raise e => Raise e
      end
  end.

(** [User.use_credit], on the credits of the object: the answer and the
    credits after the call. *)
Definition use_credit (credits : t) : bool * t :=
  if gt_zero credits then (true, sub_one credits) else (false, credits).

(** [User.add_credits] *)
Definition add_credits (credits amount : t) : outcome t :=
  add credits amount.

(** [use_credit] called [n] times: the answers in order, and the credits
    at the end. *)
Fixpoint use_credits (n : nat) (credits : t) : list bool * t :=
  match n with
  | O => ([], credits)
  | S n' =>
      let (used, credits1) := use_credit credits in
      let (rest, credits2) := use_credits n' credits1 in
      (used :: rest, credits2)
  end.

End Num.

(** ** Vocabulary of the properties, and data for worked requests *)

(** Credits granted with a plan (the branches after [user.plan_type = new_plan]). *)
Definition plan_bonus (new_plan : string) : Z :=
  if String.eqb new_plan "pro" then 500
  else if String.eqb new_plan "premium" then 1000
  else 0.

(** A registration request whose three fields are strings. *)
Definition string_fields (kvs : list (string * json)) (n e p : string) : Prop :=
  assoc "name" kvs = Some (JStr n)
  /\ assoc "email" kvs = Some (JStr e)
  /\ assoc "password" kvs = Some (JStr p).

(** The email as [register] and [login] look it up. *)
Definition normalize (e : string) : string := Py.lower (Py.strip e).

(** A login request whose two fields are strings. *)
Definition login_fields (kvs : list (string * json)) (e p : string) : Prop :=
  assoc "email" kvs = Some (JStr e) /\ assoc "password" kvs = Some (JStr p).

(** Case analysis along the branches of a handler. *)
Ltac branch :=
  match goal with
  | |- context [match ?x with _ => _ end] =>
      lazymatch x with
      | context [match _ with _ => _ end] => fail
      | _ => destruct x eqn:?
      end
  end.

Ltac branches := repeat (simpl in *; try branch).

(** Every row of the table has credits >= 0. *)
Definition credits_ok (table : list User.t) : Prop :=
  Forall (fun u => 0 <= User.credits u) table.

(** Equations between pairs, taken apart. *)
Ltac pairs :=
  repeat match goal with
         | Heq : (_, _) = (_, _) |- _ => inversion Heq; clear Heq; subst
         end.

(** The handlers and the session operations, unfolded. *)
Ltac unfold_handlers :=
  unfold handle, serve, route, register, login, get_profile, use_credit,
    add_credits, check_credits, upgrade_plan, health_check, try_except,
    bind, lift, ret, query_get, query_filter_by_email_first, session_write,
    session_write_credits, session_add, session_commit, session_rollback,
    User.use_credit.

(** [has_key k v]: some dict inside [v], at any depth, has the key [k]. *)
Fixpoint has_key (k : string) (v : json) : bool :=
  match v with
  | JObj kvs =>
      existsb (fun kv => String.eqb (fst kv) k || has_key k (snd kv)) kvs
  | JArr l => existsb (has_key k) l
  | _ => false
  end.

(** The keys of a dict, and the value under a key. *)
Definition keys (v : json) : list string :=
  match v with
  | JObj kvs => map fst kvs
  | _ => []
  end.

Definition member (v : json) (k : string) : option json :=
  match v with
  | JObj kvs => assoc k kvs
  | _ => None
  end.

(** The fields of the public view, in the order of [to_dict]. *)
Definition public_fields : list string :=
  ["id"; "name"; "email"; "credits"; "plan_type"; "created_at"; "last_login";
   "is_active"].

(** The test [not data.get(field)] on a dict. *)
Definition absent_or_false (kvs : list (string * json)) (field : string) : bool :=
  match assoc field kvs with
  | Some v => negb (truthy v)
  | None => true
  end.

(** A stand-in for the libraries, to run the handlers on concrete requests:
    the hash is the salt, a dollar sign and the password; an instant prints
    as its number. *)
Definition stand_in : Externals := {|
  generate_password_hash := fun salt p => salt ++ "$" ++ p;
  check_password_hash := fun h p =>
    match index 0 "$" h with
    | Some i => String.eqb (substring (S i) (String.length h) h) p
    | None => false
    end;
  isoformat := Py.str_of_int
|}.

Definition env0 : Env := {| now := 1000; salt := "s" |}.

Definition ann : User.t :=
  User.mk 1 "Ann" "ann@test.com" "s$secret1" 100 "free" (Some 1000) None true.

(** Bob's account has been deactivated. *)
Definition bob : User.t :=
  User.mk 2 "Bob" "bob@test.com" "s$hunter22" 0 "free" (Some 1000) None false.

Definition ann_registers : list (string * json) :=
  [("name", JStr "Ann"); ("email", JStr "ANN@Test.com");
   ("password", JStr "secret1")].

Definition ann_registers_again : list (string * json) :=
  [("name", JStr "Ann"); ("email", JStr " ann@test.com ");
   ("password", JStr "secret2")].

Definition credentials (e p : string) : list (string * json) :=
  [("email", JStr e); ("password", JStr p)].

(** ** Vocabulary of the further properties *)

(** [matches r s]: the string [s] is in the language of [r]. *)
Inductive matches : Re.t -> string -> Prop :=
| m_eps : matches Re.Eps ""
| m_class (p : ascii -> bool) (c : ascii) :
    p c = true -> matches (Re.Class p) (String c "")
| m_cat (r1 r2 : Re.t) (s1 s2 : string) :
    matches r1 s1 -> matches r2 s2 -> matches (Re.Cat r1 r2) (s1 ++ s2)
| m_alt_l (r1 r2 : Re.t) (s : string) :
    matches r1 s -> matches (Re.Alt r1 r2) s
| m_alt_r (r1 r2 : Re.t) (s : string) :
    matches r2 s -> matches (Re.Alt r1 r2) s
| m_star_nil (r : Re.t) : matches (Re.Star r) ""
| m_star_app (r : Re.t) (s1 s2 : string) :
    matches r s1 -> matches (Re.Star r) s2 -> matches (Re.Star r) (s1 ++ s2).

(** [all_in p s]: every character of [s] is in the class [p]. *)
Fixpoint all_in (p : ascii -> bool) (s : string) : bool :=
  match s with
  | EmptyString => true
  | String c s' => p c && all_in p s'
  end.

(** The character classes of [email_pattern]: [a-zA-Z], [a-zA-Z0-9._%+-]
    and [a-zA-Z0-9.-]. *)
Definition is_alpha (c : ascii) : bool :=
  Re.between "a" "z" c || Re.between "A" "Z" c.

Definition is_local_char (c : ascii) : bool :=
  (is_alpha c || Re.between "0" "9" c) || Re.one_of "._%+-" c.

Definition is_domain_char (c : ascii) : bool :=
  (is_alpha c || Re.between "0" "9" c) || Re.one_of ".-" c.

Definition line_feed : string := String "010"%char "".

(** [__repr__] *)
Definition User_repr (self : User.t) : string :=
  "<User " ++ User.email self ++ ">".

(** [changed env r u]: the row [u] is the row [r] after a login, a credit
    use, a credit grant or a plan upgrade. *)
Inductive changed (env : Env) (r : User.t) : User.t -> Prop :=
| ch_login :
    User.is_active r = true ->
    changed env r (User.with_last_login r (Some (now env)))
| ch_use :
    0 < User.credits r ->
    changed env r (User.with_credits r (User.credits r - 1))
| ch_add (n : Z) :
    0 < n ->
    changed env r (User.add_credits r n)
| ch_plan (p : string) :
    is_plan p = true ->
    changed env r (User.with_credits (User.with_plan_type r p)
                     (User.credits r + plan_bonus p)).

(** [created env st u]: the row [u] is what a registration adds to [st]. *)
Definition created `{Externals} (env : Env) (st : list User.t) (u : User.t) : Prop :=
  User.id u = next_id st
  /\ row_by_email st (User.email u) = None
  /\ validate_email (User.email u) = true
  /\ (exists e : string, User.email u = normalize e)
  /\ (exists n : string, User.name u = Py.strip n)
  /\ (exists p : string,
        User.password_hash u = generate_password_hash (salt env) p)
  /\ User.credits u = 100
  /\ User.plan_type u = "free"
  /\ User.created_at u = Some (now env)
  /\ User.last_login u = None
  /\ User.is_active u = true.

(** What one request can do to the table. *)
Definition effect `{Externals} (env : Env) (st : list User.t)
  (answer : Response) (st' : list User.t) : Prop :=
  (status answer <> 201 /\ st' = st)
  \/ (status answer = 200
      /\ exists r u : User.t,
           In r st /\ changed env r u /\ st' = replace_row st u)
  \/ (status answer = 201
      /\ exists u : User.t, created env st u /\ st' = (st ++ [u])%list).

(** The primary keys and the emails of the table are without repetition. *)
Definition keys_unique (table : list User.t) : Prop :=
  NoDup (map User.id table) /\ NoDup (map User.email table).

(** What holds of every row the service has written. *)
Definition row_ok `{Externals} (u : User.t) : Prop :=
  validate_email (User.email u) = true
  /\ normalize (User.email u) = User.email u
  /\ is_plan (User.plan_type u) = true
  /\ User.is_active u = true
  /\ User.created_at u <> None
  /\ 0 < User.id u
  /\ exists salt p : string,
       User.password_hash u = generate_password_hash salt p.

(** A body that is no JSON object. *)
Definition not_a_dict (data : json) : Prop :=
  match data with
  | JObj _ => False
  | _ => True
  end.

(** ** Facts about tables and sessions *)


Lemma row_of_In (table : list User.t) (k : Z) (u : User.t) :
  row_of table k = Some u -> In u table.
Proof.
  unfold row_of. intros Hf. apply find_some in Hf. tauto.
Qed.

Lemma replace_row_length (table : list User.t) (u : User.t) :
  List.length (replace_row table u) = List.length table.
Proof. unfold replace_row. apply length_map. Qed.

Lemma replace_row_In (table : list User.t) (u x : User.t) :
  In x (replace_row table u) -> x = u \/ In x table.
Proof.
  unfold replace_row. rewrite in_map_iff.
  intros [r [Hr Hin]].
  destruct (User.id r =? User.id u); subst; auto.
Qed.

(** The changed row reads back. *)
Lemma row_of_replace_same (table : list User.t) (u u' : User.t) :
  row_of table (User.id u') = Some u ->
  row_of (replace_row table u') (User.id u') = Some u'.
Proof.
  unfold row_of, replace_row.
  induction table as [|r table IH]; simpl; [discriminate|].
  destruct (User.id r =? User.id u') eqn:E.
  - intros _. now rewrite Z.eqb_refl.
  - rewrite E. exact IH.
Qed.

(** Every other key reads as before. *)
Lemma row_of_replace_other (table : list User.t) (u' : User.t) (k : Z) :
  k <> User.id u' ->
  row_of (replace_row table u') k = row_of table k.
Proof.
  unfold row_of, replace_row. intros Hk.
  induction table as [|r table IH]; simpl; [reflexivity|].
  destruct (User.id r =? User.id u') eqn:E.
  - apply Z.eqb_eq in E.
    destruct (User.id u' =? k) eqn:E1; [lia|].
    destruct (User.id r =? k) eqn:E2; [lia|]. exact IH.
  - destruct (User.id r =? k); [reflexivity | exact IH].
Qed.

Lemma insert_ok_nil (old : list User.t) : insert_ok old [] = true.
Proof. reflexivity. Qed.

(** A commit with nothing to insert goes through. *)
Lemma commit_no_insert (st table : list User.t) :
  List.length table = List.length st ->
  session_commit {| committed := st; rows := table; bound := [] |}
  = (Ok tt, {| committed := table; rows := table; bound := [] |}).
Proof.
  intros Hl. unfold session_commit. simpl.
  rewrite <- Hl, skipn_all. reflexivity.
Qed.


Lemma row_by_email_none (table : list User.t) (e : string) :
  row_by_email table e = None ->
  existsb (fun r => String.eqb (User.email r) e) table = false.
Proof.
  unfold row_by_email.
  induction table as [|r table IH]; simpl; [reflexivity|].
  destruct (String.eqb (User.email r) e); [discriminate | exact IH].
Qed.

(** A commit that inserts one row whose email is new goes through. *)
Lemma commit_one_insert (st : list User.t) (u : User.t) :
  row_by_email st (User.email u) = None ->
  session_commit {| committed := st; rows := st ++ [u]; bound := [] |}
  = (Ok tt, {| committed := st ++ [u]; rows := st ++ [u]; bound := [] |}).
Proof.
  intros Hn. unfold session_commit. simpl.
  rewrite firstn_app, firstn_all, Nat.sub_diag. simpl.
  rewrite skipn_app, skipn_all, Nat.sub_diag. simpl.
  rewrite app_nil_r, row_by_email_none by assumption. reflexivity.
Qed.

Lemma count_email_none (table : list User.t) (e : string) :
  row_by_email table e = None -> count_email table e = 0%nat.
Proof.
  unfold row_by_email, count_email.
  induction table as [|r table IH]; simpl; [reflexivity|].
  destruct (String.eqb (User.email r) e); [discriminate | exact IH].
Qed.

Lemma count_email_app (t1 t2 : list User.t) (e : string) :
  count_email (t1 ++ t2) e = (count_email t1 e + count_email t2 e)%nat.
Proof. unfold count_email. now rewrite filter_app, length_app. Qed.

Lemma row_by_email_last (table : list User.t) (u : User.t) :
  row_by_email table (User.email u) = None ->
  row_by_email (table ++ [u]) (User.email u) = Some u.
Proof.
  unfold row_by_email.
  induction table as [|r table IH]; simpl.
  - now rewrite String.eqb_refl.
  - destruct (String.eqb (User.email r) (User.email u)); [discriminate | exact IH].
Qed.

(** ** Credit consumption *)



(** ** Credit grant *)

Lemma storable_iff (n : Z) :
  storable n = true <-> integer_min <= n <= integer_max.
Proof. unfold storable. rewrite andb_true_iff, !Z.leb_le. tauto. Qed.

Lemma replace_row_twice (table : list User.t) (u1 u2 : User.t) :
  User.id u1 = User.id u2 ->
  replace_row (replace_row table u1) u2 = replace_row table u2.
Proof.
  intros Hid. unfold replace_row. rewrite map_map. apply map_ext.
  intros r. rewrite Hid.
  destruct (User.id r =? User.id u2) eqn:E; [|now rewrite E].
  now rewrite Hid, Z.eqb_refl.
Qed.



(** ** Plan upgrade *)

Lemma is_plan_iff (new_plan : string) :
  is_plan new_plan = true
  <-> new_plan = "free" \/ new_plan = "pro" \/ new_plan = "premium".
Proof.
  unfold is_plan. simpl.
  rewrite !orb_true_iff, !String.eqb_eq. intuition discriminate.
Qed.




(** ** Registration *)

Lemma nonempty_eqb (s : string) : s <> "" -> String.eqb s "" = false.
Proof. intros Hs. now apply String.eqb_neq. Qed.

Lemma long_nonempty (p : string) : 6 <= Py.len p -> p <> "".
Proof. intros Hl ->. unfold Py.len in Hl. simpl in Hl. lia. Qed.

Lemma first_missing_none (kvs : list (string * json)) (n e p : string) :
  string_fields kvs n e p -> n <> "" -> e <> "" -> p <> "" ->
  first_missing (JObj kvs) required_fields = Ok None.
Proof.
  intros (Hn & He & Hp) Hn' He' Hp'. simpl.
  rewrite Hn, He, Hp. simpl.
  now rewrite !nonempty_eqb by assumption.
Qed.

(** The steps of [register] up to the lookup of the email, for a request
    that passes every validation. *)
Lemma register_valid_run `{Externals}
  (env : Env) (st : list User.t) (kvs : list (string * json)) (n e p : string) :
  string_fields kvs n e p -> n <> "" -> e <> "" ->
  validate_email (normalize e) = true ->
  6 <= Py.len p ->
  serve (register env (JObj kvs)) st =
    match row_by_email st (normalize e) with
    | Some _ => (error "Email already registered" 409, st)
    | None =>
        let u := User.mk (next_id st) (Py.strip n) (normalize e)
                   (generate_password_hash (salt env) p)
                   100 "free" (Some (now env)) None true in
        (jsonify [("message", JStr "Account created successfully");
                  ("user", User.to_dict u)], 201,
         (st ++ [u])%list)
    end.
Proof.
  intros Hf Hn He Hv Hp.
  pose proof (long_nonempty p Hp) as Hp'.
  unfold serve, register, try_except, bind, lift.
  rewrite (first_missing_none kvs n e p Hf Hn He Hp').
  destruct Hf as (Hfn & Hfe & Hfp).
  unfold dict_item. rewrite Hfn, Hfe, Hfp. simpl.
  fold (normalize e). rewrite Hv. simpl.
  unfold validate_password, py_len.
  replace (Py.len p <? 6) with false by (symmetry; lia). simpl.
  unfold query_filter_by_email_first. simpl.
  destruct (row_by_email st (normalize e)) eqn:Hrow; simpl; [reflexivity|].
  unfold User.with_password_hash, User.with_id, User.init. simpl.
  rewrite commit_one_insert by exact Hrow.
  reflexivity.
Qed.

(** C2.  A registration with the three fields present, a well-formed email,
    a password of at least 6 characters and an email not yet registered
    answers 201 with the public view of the row it adds to the table; that
    row has credits = 100, plan_type = "free", is_active = true and as
    password_hash the hash of the given password, and the view that is
    returned shows credits 100, plan_type "free", is_active true, the name
    stripped and the email stripped and in lower case. *)
Theorem register_creates_free_user `{Externals}
  (env : Env) (st : list User.t) (kvs : list (string * json)) (n e p : string) :
  string_fields kvs n e p -> n <> "" -> e <> "" -> p <> "" ->
  validate_email (normalize e) = true ->
  6 <= Py.len p ->
  row_by_email st (normalize e) = None ->
  exists u : User.t,
    serve (register env (JObj kvs)) st
      = (jsonify [("message", JStr "Account created successfully");
                  ("user", User.to_dict u)], 201,
         (st ++ [u])%list)
    /\ User.credits u = 100
    /\ User.plan_type u = "free"
    /\ User.is_active u = true
    /\ User.password_hash u = generate_password_hash (salt env) p
    /\ User.email u = normalize e
    /\ User.name u = Py.strip n
    /\ exists view : json,
         member (body (fst (serve (register env (JObj kvs)) st))) "user"
         = Some view
         /\ member view "credits" = Some (JInt 100)
         /\ member view "plan_type" = Some (JStr "free")
         /\ member view "is_active" = Some (JBool true)
         /\ member view "name" = Some (JStr (Py.strip n))
         /\ member view "email" = Some (JStr (normalize e))
         /\ member view "id" = Some (JInt (User.id u))
         /\ member view "last_login" = Some JNull
         /\ keys view = public_fields.
Proof.
  intros Hf Hn He _ Hv Hp Hrow.
  rewrite (register_valid_run env st kvs n e p Hf Hn He Hv Hp), Hrow.
  eexists. split; [reflexivity|]. simpl. repeat split.
  eexists. repeat split.
Qed.

(** C6.  Two registrations, one after the other, whose emails are equal once
    stripped and put in lower case, both otherwise valid, the email not yet
    registered: the first answers 201, the second 409 "Email already
    registered" (Conflict), and the table ends with exactly one row of that
    email. *)
Theorem register_twice_one_conflict `{Externals}
  (env1 env2 : Env) (st : list User.t)
  (kvs1 kvs2 : list (string * json)) (n1 e1 p1 n2 e2 p2 : string) :
  string_fields kvs1 n1 e1 p1 -> n1 <> "" -> e1 <> "" ->
  string_fields kvs2 n2 e2 p2 -> n2 <> "" -> e2 <> "" ->
  normalize e1 = normalize e2 ->
  validate_email (normalize e1) = true ->
  6 <= Py.len p1 -> 6 <= Py.len p2 ->
  row_by_email st (normalize e1) = None ->
  let first := serve (register env1 (JObj kvs1)) st in
  let second := serve (register env2 (JObj kvs2)) (snd first) in
  status (fst first) = 201
  /\ fst second = error "Email already registered" 409
  /\ count_email (snd second) (normalize e1) = 1%nat.
Proof.
  intros Hf1 Hn1 He1 Hf2 Hn2 He2 Heq Hv Hp1 Hp2 Hrow first second.
  subst second first.
  rewrite (register_valid_run env1 st kvs1 n1 e1 p1 Hf1 Hn1 He1 Hv Hp1), Hrow.
  cbv zeta. simpl fst. simpl snd.
  set (u := User.mk _ _ _ _ _ _ _ _ _).
  assert (Hu : row_by_email (st ++ [u]) (normalize e2) = Some u).
  { rewrite <- Heq. apply (row_by_email_last st u). exact Hrow. }
  rewrite Heq in Hv.
  rewrite (register_valid_run env2 (st ++ [u]) kvs2 n2 e2 p2 Hf2 Hn2 He2 Hv Hp2), Hu.
  split; [reflexivity|]. split; [reflexivity|].
  simpl snd. rewrite count_email_app, (count_email_none st _ Hrow).
  unfold count_email. simpl. now rewrite String.eqb_refl.
Qed.

(** What [register] does when a required field is missing or false. *)
Lemma register_missing_run `{Externals}
  (env : Env) (st : list User.t) (data : json) (field : string) :
  first_missing data required_fields = Ok (Some field) ->
  serve (register env data) st = (error (field ++ " is required") 400, st).
Proof.
  intros Hm. unfold serve, register, try_except, bind, lift.
  rewrite Hm. reflexivity.
Qed.

(** ** Login *)

(** What [login] does with two non-empty strings. *)
Lemma login_run `{Externals}
  (env : Env) (st : list User.t) (kvs : list (string * json)) (e p : string) :
  login_fields kvs e p -> e <> "" -> p <> "" ->
  serve (login env (JObj kvs)) st =
    match row_by_email st (normalize e) with
    | None => (error "Invalid email or password" 401, st)
    | Some u =>
        if negb (check_password_hash (User.password_hash u) p)
        then (error "Invalid email or password" 401, st)
        else if negb (User.is_active u)
        then (error "Account is deactivated" 401, st)
        else
          let u' := User.with_last_login u (Some (now env)) in
          (jsonify [("message", JStr "Login successful");
                    ("user", User.to_dict u')], 200,
           replace_row st u')
    end.
Proof.
  intros (He & Hp) He' Hp'.
  unfold serve, login, try_except, bind, lift, dict_get, dict_item.
  rewrite He, Hp. simpl.
  rewrite !nonempty_eqb by assumption. simpl.
  fold (normalize e). unfold query_filter_by_email_first. simpl.
  destruct (row_by_email st (normalize e)) as [u|]; simpl; [|reflexivity].
  destruct (check_password_hash (User.password_hash u) p); simpl; [|reflexivity].
  destruct (User.is_active u); simpl; [|reflexivity].
  rewrite commit_no_insert by apply replace_row_length.
  reflexivity.
Qed.

(** C10.  A login that does not answer 200 (a missing field, an unknown
    email, a wrong password, a deactivated account, or a failure inside the
    handler) leaves the table as it was, last_login included; a login that
    answers 200 changes one row, and in it last_login only. *)
Theorem login_failure_changes_nothing `{Externals}
  (env : Env) (data : json) (st : list User.t) :
  let result := serve (login env data) st in
  (status (fst result) <> 200 -> snd result = st)
  /\ (status (fst result) = 200 ->
      exists u : User.t,
        In u st
        /\ snd result = replace_row st (User.with_last_login u (Some (now env)))).
Proof.
  unfold serve, login, try_except, bind, lift, ret,
    query_filter_by_email_first, session_write, session_commit, error, status.
  split.
  - branches; intros Hs; try reflexivity;
      repeat match goal with
             | Heq : (_, _) = (_, _) |- _ => inversion Heq; clear Heq; subst
             end; simpl in *; try reflexivity; try congruence.
  - branches; intros Hs; try discriminate;
      repeat match goal with
             | Heq : (_, _) = (_, _) |- _ => inversion Heq; clear Heq; subst
             end; simpl in *; try discriminate.
    all: match goal with
         | Hr : row_by_email _ _ = Some ?u |- _ =>
             exists u; split; [|reflexivity];
             unfold row_by_email in Hr; apply find_some in Hr; tauto
         end.
Qed.

(** ** Credits stay non-negative *)

Lemma credits_ok_replace (table : list User.t) (u : User.t) :
  credits_ok table -> 0 <= User.credits u -> credits_ok (replace_row table u).
Proof.
  unfold credits_ok. intros Hok Hu.
  rewrite Forall_forall in *. intros x Hx.
  apply replace_row_In in Hx. destruct Hx as [-> | Hx]; auto.
Qed.

Lemma credits_ok_row_of (table : list User.t) (k : Z) (u : User.t) :
  credits_ok table -> row_of table k = Some u -> 0 <= User.credits u.
Proof.
  unfold credits_ok. rewrite Forall_forall. intros Hok Hr.
  apply Hok. eapply row_of_In; eassumption.
Qed.

Lemma credits_ok_row_by_email (table : list User.t) (e : string) (u : User.t) :
  credits_ok table -> row_by_email table e = Some u -> 0 <= User.credits u.
Proof.
  unfold credits_ok, row_by_email. rewrite Forall_forall. intros Hok Hr.
  apply Hok. apply find_some in Hr. tauto.
Qed.

Lemma set_password_credits `{Externals}
  (env : Env) (u u' : User.t) (password : json) :
  User.set_password env u password = Ok u' -> User.credits u' = User.credits u.
Proof.
  destruct password; simpl; intros Heq; inversion Heq. reflexivity.
Qed.

(** No request takes a table with non-negative credits to one without. *)
Lemma handle_keeps_credits `{Externals}
  (env : Env) (req : Request) (st : list User.t) :
  credits_ok st -> credits_ok (snd (handle env req st)).
Proof.
  intros Hok.
  destruct req; unfold_handlers; branches; pairs; simpl in *; try assumption.
  all: rewrite ?replace_row_twice by reflexivity.
  all: try (apply credits_ok_replace; [assumption|]).
  all: try match goal with
           | Hr : row_of _ _ = Some ?t |- _ =>
               pose proof (credits_ok_row_of _ _ _ Hok Hr)
           | Hr : row_by_email _ _ = Some ?t |- _ =>
               pose proof (credits_ok_row_by_email _ _ _ Hok Hr)
           end.
  all: simpl; try lia.
  apply Forall_app. split; [exact Hok|].
  constructor; [|constructor]. simpl.
  match goal with
  | Hs : User.set_password _ _ _ = Ok _ |- _ =>
      rewrite (set_password_credits _ _ _ _ Hs)
  end.
  simpl. lia.
Qed.

Lemma reachable_credits_ok `{Externals} (st : list User.t) :
  reachable st -> credits_ok st.
Proof.
  induction 1 as [|env req st _ IH].
  - constructor.
  - apply handle_keeps_credits. exact IH.
Qed.

(** X24.  Through requests whose amounts are integers (the numbers of
    [json]), credits stay >= 0: in every table reached from the empty one by
    such requests, and after every such request handled on it, whatever
    the answer, every user's credits are >= 0. *)
Theorem credits_never_negative `{Externals}
  (st : list User.t) (env : Env) (req : Request) (u : User.t) :
  reachable st ->
  In u (snd (handle env req st)) ->
  0 <= User.credits u.
Proof.
  intros Hreach Hin.
  pose proof (handle_keeps_credits env req st (reachable_credits_ok st Hreach)) as Hok.
  unfold credits_ok in Hok. rewrite Forall_forall in Hok.
  exact (Hok u Hin).
Qed.

(** ** The public view *)

Lemma has_key_iso_or_none `{Externals} (k : string) (d : option Z) :
  has_key k (User.iso_or_none d) = false.
Proof. destruct d; reflexivity. Qed.

Lemma to_dict_keys `{Externals} (u : User.t) :
  keys (User.to_dict u) = public_fields.
Proof. reflexivity. Qed.

(** C8.  Whatever the request and the table, the answer has no
    "password_hash" key at any depth, and a user view it carries under
    "user" is the [to_dict] of a row: a dict with exactly the keys id, name,
    email, credits, plan_type, created_at, last_login, is_active. *)
Theorem public_view_has_no_password_hash `{Externals}
  (env : Env) (req : Request) (st : list User.t) :
  let answer := body (fst (handle env req st)) in
  has_key "password_hash" answer = false
  /\ (forall v : json,
        member answer "user" = Some v ->
        (exists u : User.t, v = User.to_dict u)
        /\ keys v = public_fields
        /\ ~ In "password_hash" (keys v)).
Proof.
  assert (Hview : forall u v, Some (User.to_dict u) = Some v ->
            (exists u' : User.t, v = User.to_dict u')
            /\ keys v = public_fields
            /\ ~ In "password_hash" (keys v)).
  { intros u v Hv. inversion Hv; subst. split; [now exists u|].
    split; [reflexivity|]. simpl.
    intros Hin. repeat (destruct Hin as [Hin | Hin]; [discriminate|]).
    exact Hin. }
  unfold body, error, jsonify.
  destruct req; unfold_handlers; branches; pairs; simpl in *.
  all: rewrite ?has_key_iso_or_none.
  all: split; [reflexivity|].
  all: intros v Hv; try discriminate.
  all: eapply Hview; exact Hv.
Qed.

(** ** Login failures *)

(** C3, as the code has it.  On one table, a login on a deactivated account
    with its correct password, a login with a wrong password and a login
    with an unknown email all answer with status 401.  The last two answers
    are the same, "Invalid email or password"; the first carries its own
    message, "Account is deactivated", so it is not the same answer. *)
Theorem login_failures_share_status_only `{Externals}
  (env : Env) (st : list User.t)
  (kvs_a kvs_b kvs_c : list (string * json))
  (e_a p_a e_b p_b e_c p_c : string) (u_a u_b : User.t) :
  login_fields kvs_a e_a p_a -> e_a <> "" -> p_a <> "" ->
  row_by_email st (normalize e_a) = Some u_a ->
  check_password_hash (User.password_hash u_a) p_a = true ->
  User.is_active u_a = false ->
  login_fields kvs_b e_b p_b -> e_b <> "" -> p_b <> "" ->
  row_by_email st (normalize e_b) = Some u_b ->
  check_password_hash (User.password_hash u_b) p_b = false ->
  login_fields kvs_c e_c p_c -> e_c <> "" -> p_c <> "" ->
  row_by_email st (normalize e_c) = None ->
  let deactivated := fst (serve (login env (JObj kvs_a)) st) in
  let wrong_password := fst (serve (login env (JObj kvs_b)) st) in
  let unknown_email := fst (serve (login env (JObj kvs_c)) st) in
  wrong_password = error "Invalid email or password" 401
  /\ unknown_email = wrong_password
  /\ deactivated = error "Account is deactivated" 401
  /\ status deactivated = status wrong_password
  /\ deactivated <> wrong_password.
Proof.
  intros Hfa Hea Hpa Hra Hca Hia Hfb Heb Hpb Hrb Hcb Hfc Hec Hpc Hrc.
  intros deactivated wrong_password unknown_email.
  subst deactivated wrong_password unknown_email.
  rewrite (login_run env st kvs_a e_a p_a Hfa Hea Hpa), Hra, Hca, Hia.
  rewrite (login_run env st kvs_b e_b p_b Hfb Heb Hpb), Hrb, Hcb.
  rewrite (login_run env st kvs_c e_c p_c Hfc Hec Hpc), Hrc.
  simpl. repeat split. discriminate.
Qed.

(** ** Missing fields *)

Lemma first_missing_cons (kvs : list (string * json)) (field : string)
  (rest : list string) :
  first_missing (JObj kvs) (field :: rest) =
    if absent_or_false kvs field then Ok (Some field)
    else first_missing (JObj kvs) rest.
Proof.
  unfold absent_or_false. simpl.
  destruct (assoc field kvs) as [v|]; simpl; [|reflexivity].
  destruct (truthy v); reflexivity.
Qed.

(** C9, as the code has it.  A registration in which name, email or
    password is absent or empty as submitted (nothing is stripped before
    this test) answers 400 "<field> is required" (MissingField) for the
    first such field in the order name, email, password, and the table is
    unchanged. *)
Theorem register_reports_first_missing_field `{Externals}
  (env : Env) (st : list User.t) (kvs : list (string * json)) :
  let result := serve (register env (JObj kvs)) st in
  (absent_or_false kvs "name" = true ->
   result = (error "name is required" 400, st))
  /\ (absent_or_false kvs "name" = false ->
      absent_or_false kvs "email" = true ->
      result = (error "email is required" 400, st))
  /\ (absent_or_false kvs "name" = false ->
      absent_or_false kvs "email" = false ->
      absent_or_false kvs "password" = true ->
      result = (error "password is required" 400, st)).
Proof.
  intros result. subst result. unfold required_fields.
  repeat split.
  - intros Hn. apply (register_missing_run env st (JObj kvs) "name").
    unfold required_fields. now rewrite first_missing_cons, Hn.
  - intros Hn He. apply (register_missing_run env st (JObj kvs) "email").
    unfold required_fields. now rewrite !first_missing_cons, Hn, He.
  - intros Hn He Hp. apply (register_missing_run env st (JObj kvs) "password").
    unfold required_fields. now rewrite !first_missing_cons, Hn, He, Hp.
Qed.

(** ** The language of a pattern *)

Lemma append_nil_r (s : string) : s ++ "" = s.
Proof. induction s as [|c s IH]; simpl; [reflexivity | now rewrite IH]. Qed.

Lemma append_assoc (s1 s2 s3 : string) : (s1 ++ s2) ++ s3 = s1 ++ (s2 ++ s3).
Proof. induction s1 as [|c s1 IH]; simpl; [reflexivity | now rewrite IH]. Qed.

Lemma append_eq_nil (s1 s2 : string) : s1 ++ s2 = "" -> s1 = "" /\ s2 = "".
Proof. destruct s1; simpl; [auto | discriminate]. Qed.

Lemma nullable_matches (r : Re.t) : Re.nullable r = true <-> matches r "".
Proof.
  split.
  - induction r; simpl; intros Hn; try discriminate.
    + constructor.
    + apply andb_true_iff in Hn. destruct Hn.
      change "" with ("" ++ ""). constructor; auto.
    + apply orb_true_iff in Hn. destruct Hn; [apply m_alt_l | apply m_alt_r]; auto.
    + constructor.
  - intros Hm. remember "" as s eqn:Hs.
    induction Hm; simpl; try reflexivity; try discriminate.
    + apply append_eq_nil in Hs. destruct Hs; subst.
      rewrite IHHm1, IHHm2; reflexivity.
    + rewrite IHHm; auto.
    + rewrite IHHm; auto. apply orb_true_r.
Qed.

Lemma deriv_matches (r : Re.t) (c : ascii) (s : string) :
  matches (Re.deriv c r) s <-> matches r (String c s).
Proof.
  split.
  - revert s. induction r; simpl; intros s Hm.
    + inversion Hm.
    + inversion Hm.
    + destruct (p c) eqn:Hp; inversion Hm; subst. now constructor.
    + destruct (Re.nullable r1) eqn:Hn.
      * inversion Hm; subst.
        -- match goal with
           | Hc : matches (Re.Cat _ _) _ |- _ => inversion Hc; subst
           end.
           change (String c (s1 ++ s2)) with (String c s1 ++ s2).
           constructor; auto.
        -- change (String c s) with ("" ++ String c s).
           constructor; [now apply nullable_matches | auto].
      * inversion Hm; subst.
        change (String c (s1 ++ s2)) with (String c s1 ++ s2).
        constructor; auto.
    + inversion Hm; subst; [apply m_alt_l | apply m_alt_r]; auto.
    + inversion Hm; subst.
      change (String c (s1 ++ s2)) with (String c s1 ++ s2).
      constructor; auto.
  - intros Hm. remember (String c s) as cs eqn:Hcs. revert c s Hcs.
    induction Hm; intros c0 s0 Hcs; simpl; try discriminate.
    + inversion Hcs; subst.
      match goal with Hp : p _ = true |- _ => rewrite Hp end. constructor.
    + destruct s1 as [|c1 s1].
      * simpl in Hcs. subst.
        assert (Hn : Re.nullable r1 = true) by now apply nullable_matches.
        rewrite Hn. apply m_alt_r. now apply IHHm2.
      * simpl in Hcs. inversion Hcs; subst.
        assert (Hd : matches (Re.Cat (Re.deriv c0 r1) r2) (s1 ++ s2))
          by (constructor; [now apply IHHm1 | assumption]).
        destruct (Re.nullable r1); [apply m_alt_l|]; exact Hd.
    + apply m_alt_l. now apply IHHm.
    + apply m_alt_r. now apply IHHm.
    + destruct s1 as [|c1 s1].
      * simpl in Hcs. now apply IHHm2.
      * simpl in Hcs. inversion Hcs; subst.
        constructor; [now apply IHHm1 | assumption].
Qed.

(** The matcher decides the language. *)
Lemma fullmatch_matches (r : Re.t) (s : string) :
  Re.fullmatch r s = true <-> matches r s.
Proof.
  revert r. induction s as [|c s IH]; intros r; simpl.
  - apply nullable_matches.
  - rewrite IH. apply deriv_matches.
Qed.

Lemma star_class_matches (p : ascii -> bool) (s : string) :
  matches (Re.Star (Re.Class p)) s <-> all_in p s = true.
Proof.
  split.
  - intros Hm. remember (Re.Star (Re.Class p)) as r eqn:Hr.
    induction Hm; try discriminate; [reflexivity|].
    inversion Hr; subst. inversion Hm1; subst. simpl.
    rewrite IHHm2 by reflexivity.
    match goal with Hp : p _ = true |- _ => now rewrite Hp end.
  - induction s as [|c s IH]; simpl; intros Ha; [constructor|].
    apply andb_true_iff in Ha. destruct Ha as [Hc Hs].
    change (String c s) with (String c "" ++ s).
    constructor; [now constructor | auto].
Qed.

Lemma plus_class_matches (p : ascii -> bool) (s : string) :
  matches (Re.Plus (Re.Class p)) s <-> s <> "" /\ all_in p s = true.
Proof.
  unfold Re.Plus. split.
  - intros Hm. inversion Hm; subst.
    match goal with
    | Hc : matches (Re.Class _) _ |- _ => inversion Hc; subst
    end.
    simpl. split; [discriminate|].
    apply andb_true_iff. split; [assumption | now apply star_class_matches].
  - intros [Hne Ha]. destruct s as [|c s]; [congruence|]. simpl in Ha.
    apply andb_true_iff in Ha. destruct Ha as [Hc Hs].
    change (String c s) with (String c "" ++ s).
    constructor; [now constructor | now apply star_class_matches].
Qed.

Lemma chr_matches (a : ascii) (s : string) :
  matches (Re.Chr a) s <-> s = String a "".
Proof.
  unfold Re.Chr. split.
  - intros Hm. inversion Hm; subst.
    match goal with
    | Hp : Ascii.eqb _ _ = true |- _ => apply Ascii.eqb_eq in Hp; now subst
    end.
  - intros ->. constructor. apply Ascii.eqb_refl.
Qed.

Lemma dollar_matches (s : string) :
  matches Re.Dollar s <-> s = "" \/ s = line_feed.
Proof.
  unfold Re.Dollar, Re.Opt. split.
  - intros Hm. inversion Hm; subst.
    + match goal with Hc : matches Re.Eps _ |- _ => inversion Hc end. now left.
    + right. now apply chr_matches.
  - intros [-> | ->]; [apply m_alt_l; constructor | apply m_alt_r].
    now apply chr_matches.
Qed.

Lemma email_pattern_classes :
  email_pattern =
    Re.Cat (Re.Plus (Re.Class is_local_char))
      (Re.Cat (Re.Chr "@")
         (Re.Cat (Re.Plus (Re.Class is_domain_char))
            (Re.Cat (Re.Chr ".")
               (Re.Cat (Re.Class is_alpha)
                  (Re.Cat (Re.Class is_alpha)
                     (Re.Cat (Re.Star (Re.Class is_alpha)) Re.Dollar)))))).
Proof. reflexivity. Qed.

Lemma all_in_app (p : ascii -> bool) (s1 s2 : string) :
  all_in p (s1 ++ s2) = all_in p s1 && all_in p s2.
Proof.
  induction s1 as [|c s1 IH]; simpl; [reflexivity|].
  now rewrite IH, andb_assoc.
Qed.

(** The language of [email_pattern]. *)
Lemma email_pattern_matches (s : string) :
  matches email_pattern s
  <-> exists local_part domain tld ending : string,
        s = local_part ++ "@" ++ domain ++ "." ++ tld ++ ending
        /\ local_part <> "" /\ all_in is_local_char local_part = true
        /\ domain <> "" /\ all_in is_domain_char domain = true
        /\ (2 <= String.length tld)%nat /\ all_in is_alpha tld = true
        /\ (ending = "" \/ ending = line_feed).
Proof.
  rewrite email_pattern_classes.
  split.
  - intros Hm.
    repeat match goal with
           | Hc : matches (Re.Cat _ _) _ |- _ => inversion Hc; clear Hc; subst
           end.
    repeat match goal with
           | Hc : matches (Re.Chr _) _ |- _ => apply chr_matches in Hc; subst
           | Hc : matches (Re.Plus _) _ |- _ =>
               apply plus_class_matches in Hc; destruct Hc
           | Hc : matches (Re.Star _) _ |- _ => apply star_class_matches in Hc
           | Hc : matches Re.Dollar _ |- _ => apply dollar_matches in Hc
           | Hc : matches (Re.Class _) _ |- _ => inversion Hc; clear Hc; subst
           end.
    match goal with
    | |- context [?l ++ "@" ++ ?d ++ "." ++ String ?c1 "" ++ String ?c2 "" ++ ?t ++ ?e] =>
        exists l, d, (String c1 (String c2 t)), e
    end.
    simpl. repeat split; try assumption; try lia.
    repeat (apply andb_true_iff; split); assumption.
  - intros (l & d & tld & e & -> & Hl & Hla & Hd & Hda & Hlen & Hta & He).
    destruct tld as [|c1 [|c2 t]]; simpl in Hlen; try lia.
    simpl in Hta. apply andb_true_iff in Hta. destruct Hta as [Hc1 Hta].
    apply andb_true_iff in Hta. destruct Hta as [Hc2 Hta].
    constructor; [now apply plus_class_matches|].
    change ("@" ++ d ++ "." ++ String c1 (String c2 t) ++ e)
      with (String "@" "" ++ (d ++ (String "." "" ++ (String c1 "" ++ (String c2 "" ++ (t ++ e)))))).
    constructor; [now apply chr_matches|].
    constructor; [now apply plus_class_matches|].
    constructor; [now apply chr_matches|].
    constructor; [now constructor|].
    constructor; [now constructor|].
    constructor; [now apply star_class_matches | now apply dollar_matches].
Qed.

(** X1.  [validate_email] accepts exactly the strings made of a non-empty
    local part over [a-zA-Z0-9._%+-], an at sign, a non-empty domain over
    [a-zA-Z0-9.-], a dot and at least two letters, followed by nothing or by
    one line feed. *)
Theorem validate_email_shape (s : string) :
  validate_email s = true
  <-> exists local_part domain tld ending : string,
        s = local_part ++ "@" ++ domain ++ "." ++ tld ++ ending
        /\ local_part <> "" /\ all_in is_local_char local_part = true
        /\ domain <> "" /\ all_in is_domain_char domain = true
        /\ (2 <= String.length tld)%nat /\ all_in is_alpha tld = true
        /\ (ending = "" \/ ending = line_feed).
Proof.
  unfold validate_email. rewrite fullmatch_matches.
  apply email_pattern_matches.
Qed.

(** ** Stripping and lower case *)

Lemma lower_char_idem (c : ascii) :
  Py.lower_char (Py.lower_char c) = Py.lower_char c.
Proof. destruct c as [[] [] [] [] [] [] [] []]; reflexivity. Qed.

Lemma isspace_lower_char (c : ascii) :
  Py.isspace (Py.lower_char c) = Py.isspace c.
Proof. destruct c as [[] [] [] [] [] [] [] []]; reflexivity. Qed.

Lemma lower_idem (s : string) : Py.lower (Py.lower s) = Py.lower s.
Proof.
  induction s as [|c s IH]; simpl; [reflexivity|].
  now rewrite lower_char_idem, IH.
Qed.

Lemma lower_lstrip (s : string) :
  Py.lower (Py.lstrip s) = Py.lstrip (Py.lower s).
Proof.
  induction s as [|c s IH]; simpl; [reflexivity|].
  rewrite isspace_lower_char. destruct (Py.isspace c); [exact IH | reflexivity].
Qed.

Lemma lower_rstrip (s : string) :
  Py.lower (Py.rstrip s) = Py.rstrip (Py.lower s).
Proof.
  induction s as [|c s IH]; simpl; [reflexivity|].
  rewrite <- IH, isspace_lower_char.
  destruct (Py.rstrip s); simpl; [|reflexivity].
  destruct (Py.isspace c); reflexivity.
Qed.

Lemma lower_strip (s : string) :
  Py.lower (Py.strip s) = Py.strip (Py.lower s).
Proof. unfold Py.strip. now rewrite lower_rstrip, lower_lstrip. Qed.

Lemma rstrip_idem (s : string) : Py.rstrip (Py.rstrip s) = Py.rstrip s.
Proof.
  induction s as [|c s IH]; simpl; [reflexivity|].
  destruct (Py.rstrip s) as [|c' r] eqn:Hr.
  - destruct (Py.isspace c) eqn:Hc; simpl; [reflexivity | now rewrite Hc].
  - change (Py.rstrip (String c (String c' r)))
      with (match Py.rstrip (String c' r) with
            | EmptyString =>
                if Py.isspace c then EmptyString else String c EmptyString
            | String _ _ as r0 => String c r0
            end).
    now rewrite IH.
Qed.

(** Stripping on the right keeps a first character that is no white space. *)
Lemma rstrip_head (c : ascii) (s : string) :
  Py.isspace c = false -> exists r, Py.rstrip (String c s) = String c r.
Proof.
  intros Hc. simpl. destruct (Py.rstrip s); [rewrite Hc|]; eauto.
Qed.

Lemma lstrip_head (s : string) :
  Py.lstrip s = ""
  \/ exists c r, Py.lstrip s = String c r /\ Py.isspace c = false.
Proof.
  induction s as [|c s IH]; simpl; [now left|].
  destruct (Py.isspace c) eqn:Hc; [exact IH | right; eauto].
Qed.

Lemma strip_idem (s : string) : Py.strip (Py.strip s) = Py.strip s.
Proof.
  unfold Py.strip.
  assert (Hl : Py.lstrip (Py.rstrip (Py.lstrip s)) = Py.rstrip (Py.lstrip s)).
  { destruct (lstrip_head s) as [-> | (c & r & -> & Hc)]; [reflexivity|].
    destruct (rstrip_head c r Hc) as (r' & ->). simpl. now rewrite Hc. }
  now rewrite Hl, rstrip_idem.
Qed.

(** X2.  Putting an email into the form the service stores and looks up
    (stripped, then lower case) a second time changes nothing. *)
Theorem normalize_idempotent (e : string) :
  normalize (normalize e) = normalize e.
Proof.
  unfold normalize.
  now rewrite <- lower_strip, lower_idem, strip_idem.
Qed.

(** A string that stripping leaves alone does not end in white space. *)
Lemma rstrip_app_space (s : string) (c : ascii) :
  Py.isspace c = true -> Py.rstrip (s ++ String c "") = Py.rstrip s.
Proof.
  intros Hc. induction s as [|c' s IH]; simpl; [now rewrite Hc|].
  now rewrite IH.
Qed.

Lemma rstrip_length (s : string) :
  (String.length (Py.rstrip s) <= String.length s)%nat.
Proof.
  induction s as [|c s IH]; simpl; [lia|].
  destruct (Py.rstrip s); simpl in *; [destruct (Py.isspace c); simpl; lia | lia].
Qed.

Lemma append_length (s1 s2 : string) :
  String.length (s1 ++ s2) = (String.length s1 + String.length s2)%nat.
Proof. induction s1 as [|c s1 IH]; simpl; [reflexivity | now rewrite IH]. Qed.

Lemma strip_no_trailing_space (s : string) (c : ascii) :
  Py.isspace c = true -> Py.strip (s ++ String c "") <> s ++ String c "".
Proof.
  intros Hc Heq.
  assert (Hr : Py.rstrip (s ++ String c "") = s ++ String c "").
  { rewrite <- Heq at 1. unfold Py.strip. rewrite rstrip_idem. exact Heq. }
  rewrite rstrip_app_space in Hr by exact Hc.
  pose proof (rstrip_length s) as Hlen.
  rewrite Hr, append_length in Hlen. simpl in Hlen. lia.
Qed.

Lemma normalize_strip (e : string) :
  normalize e = e -> Py.strip e = e.
Proof.
  unfold normalize. intros Hn.
  rewrite <- Hn at 1. rewrite <- lower_strip, strip_idem. exact Hn.
Qed.

Lemma all_in_weaken (p q : ascii -> bool) (s : string) :
  (forall c, p c = true -> q c = true) ->
  all_in p s = true -> all_in q s = true.
Proof.
  intros Hpq. induction s as [|c s IH]; simpl; [reflexivity|].
  intros Ha. apply andb_true_iff in Ha. destruct Ha as [Hc Hs].
  now rewrite (Hpq c Hc), IH.
Qed.

(** X3.  An email that [validate_email] accepts and that is in the stored
    form (stripped, lower case) has no line feed at its end: it is a local
    part, an at sign, a domain, a dot and at least two letters, and nothing
    more. *)
Theorem stored_email_shape (e : string) :
  validate_email e = true ->
  normalize e = e ->
  exists local_part domain tld : string,
    e = local_part ++ "@" ++ domain ++ "." ++ tld
    /\ local_part <> "" /\ all_in is_local_char local_part = true
    /\ domain <> "" /\ all_in is_domain_char domain = true
    /\ (2 <= String.length tld)%nat /\ all_in is_alpha tld = true.
Proof.
  intros Hv Hn. unfold validate_email in Hv.
  apply fullmatch_matches, email_pattern_matches in Hv.
  destruct Hv as (l & d & tld & ending & He & Hl & Hla & Hd & Hda & Hlen & Hta & Hend).
  destruct Hend as [-> | ->].
  - exists l, d, tld. rewrite append_nil_r in He. repeat split; assumption.
  - exfalso. apply normalize_strip in Hn.
    apply (strip_no_trailing_space (l ++ "@" ++ d ++ "." ++ tld) "010"%char).
    + reflexivity.
    + replace ((l ++ "@" ++ d ++ "." ++ tld) ++ String "010"%char "") with e.
      * exact Hn.
      * rewrite He. unfold line_feed.
        rewrite !append_assoc. simpl. rewrite ?append_assoc. reflexivity.
Qed.

(** ** What a request does to the table *)

Lemma py_strip_ok (v : json) (s : string) :
  py_strip v = Ok s -> exists x, v = JStr x /\ s = Py.strip x.
Proof. destruct v; simpl; intros Heq; inversion Heq. eauto. Qed.

Lemma set_password_ok `{Externals} (env : Env) (u u' : User.t) (v : json) :
  User.set_password env u v = Ok u' ->
  exists p, v = JStr p
    /\ u' = User.with_password_hash u (generate_password_hash (salt env) p).
Proof. destruct v; simpl; intros Heq; inversion Heq. eauto. Qed.

Lemma row_by_email_In (table : list User.t) (e : string) (u : User.t) :
  row_by_email table e = Some u -> In u table.
Proof. unfold row_by_email. intros Hf. apply find_some in Hf. tauto. Qed.

Lemma row_by_email_email (table : list User.t) (e : string) (u : User.t) :
  row_by_email table e = Some u -> User.email u = e.
Proof.
  unfold row_by_email. intros Hf. apply find_some in Hf.
  now apply String.eqb_eq.
Qed.

(** Every request leaves the table alone, changes one row of it, or adds
    one row to it. *)
Lemma handle_effect `{Externals} (env : Env) (req : Request) (st : list User.t) :
  effect env st (fst (handle env req st)) (snd (handle env req st)).
Proof.
  unfold effect, status.
  destruct req; unfold_handlers; branches; pairs; simpl in *;
    try (left; split; [discriminate | reflexivity]).
  all: right.
  all: rewrite ?replace_row_twice by reflexivity.
  all: try match goal with
           | Hr : row_of _ _ = Some ?t |- _ => pose proof (row_of_In _ _ _ Hr)
           | Hr : row_by_email _ _ = Some ?t |- _ =>
               pose proof (row_by_email_In _ _ _ Hr)
           end.
  all: first
    [ (* a registration *)
      right; split; [reflexivity|];
      repeat match goal with
             | Hs : py_strip _ = Ok _ |- _ =>
                 apply py_strip_ok in Hs; destruct Hs as (? & _ & ->)
             | Hs : User.set_password _ _ _ = Ok _ |- _ =>
                 apply set_password_ok in Hs; destruct Hs as (? & _ & ->)
             | Hv : negb (validate_email _) = false |- _ =>
                 apply negb_false_iff in Hv
             end;
      eexists; split; [|reflexivity];
      unfold created, normalize; simpl; repeat split; eauto; fail
    | (* an upgrade to pro or premium *)
      left; split; [reflexivity|];
      match goal with
      | Hin : In ?t _, Hp : String.eqb ?p "pro" = true |- _ =>
          apply String.eqb_eq in Hp; subst p;
          exists t; eexists; split; [exact Hin|]; split; [|reflexivity];
          apply (ch_plan env t "pro"); reflexivity
      | Hin : In ?t _, Hp : String.eqb ?p "premium" = true |- _ =>
          apply String.eqb_eq in Hp; subst p;
          exists t; eexists; split; [exact Hin|]; split; [|reflexivity];
          apply (ch_plan env t "premium"); reflexivity
      end
    | (* an upgrade to free *)
      left; split; [reflexivity|];
      match goal with
      | Hin : In ?t _, Hv : negb (is_plan ?p) = false,
        H1 : String.eqb ?p "pro" = false,
        H2 : String.eqb ?p "premium" = false |- _ =>
          apply negb_false_iff in Hv;
          exists t; exists (User.with_plan_type t p);
          split; [exact Hin|]; split; [|reflexivity];
          replace (User.with_plan_type t p)
            with (User.with_credits (User.with_plan_type t p)
                    (User.credits t + plan_bonus p));
          [ now apply ch_plan
          | unfold plan_bonus; rewrite H1, H2;
            unfold User.with_credits; simpl; now rewrite Z.add_0_r ]
      end
    | (* a login, a credit use, a credit grant *)
      left; split; [reflexivity|];
      match goal with
      | Hin : In ?t _ |- _ =>
          exists t; eexists; split; [exact Hin|]; split; [|reflexivity]
      end;
      first [ apply ch_login; now apply negb_false_iff
            | apply ch_use; lia
            | apply ch_add; lia ] ].
Qed.

(** A change keeps what identifies the account. *)
Lemma changed_identity (env : Env) (r u : User.t) :
  changed env r u ->
  User.id u = User.id r
  /\ User.name u = User.name r
  /\ User.email u = User.email r
  /\ User.password_hash u = User.password_hash r
  /\ User.created_at u = User.created_at r
  /\ User.is_active u = User.is_active r.
Proof. intros Hc. destruct Hc; simpl; repeat split. Qed.


Lemma replace_row_ids (table : list User.t) (u : User.t) :
  map User.id (replace_row table u) = map User.id table.
Proof.
  unfold replace_row. induction table as [|a table IH]; simpl; [reflexivity|].
  rewrite IH. destruct (User.id a =? User.id u) eqn:E; [|reflexivity].
  apply Z.eqb_eq in E. now rewrite E.
Qed.

Lemma unique_id_row (table : list User.t) (a b : User.t) :
  NoDup (map User.id table) -> In a table -> In b table ->
  User.id a = User.id b -> a = b.
Proof.
  induction table as [|x table IH]; simpl; [tauto|].
  intros Hnd Ha Hb Hid. inversion Hnd as [|? ? Hx Hnd']; subst.
  destruct Ha as [-> | Ha], Hb as [-> | Hb]; auto.
  - exfalso. apply Hx. rewrite Hid. now apply in_map.
  - exfalso. apply Hx. rewrite <- Hid. now apply in_map.
Qed.

Lemma unique_id_row_of (table : list User.t) (r : User.t) :
  NoDup (map User.id table) -> In r table ->
  row_of table (User.id r) = Some r.
Proof.
  intros Hnd Hin. unfold row_of.
  destruct (find (fun u => User.id u =? User.id r) table) as [x|] eqn:Hf.
  - apply find_some in Hf. destruct Hf as [Hx Hid].
    f_equal. apply (unique_id_row table x r Hnd Hx Hin). lia.
  - exfalso. apply (find_none _ _ Hf) in Hin. lia.
Qed.

Lemma replace_row_emails (table : list User.t) (r u : User.t) :
  NoDup (map User.id table) -> In r table ->
  User.id u = User.id r -> User.email u = User.email r ->
  map User.email (replace_row table u) = map User.email table.
Proof.
  intros Hnd Hin Hid Hem. unfold replace_row. rewrite map_map.
  apply map_ext_in. intros a Ha.
  destruct (User.id a =? User.id u) eqn:E; [|reflexivity].
  apply Z.eqb_eq in E.
  assert (a = r) by (apply (unique_id_row table a r Hnd Ha Hin); lia).
  now subst.
Qed.

Lemma next_id_fresh (table : list User.t) (r : User.t) :
  In r table -> User.id r < next_id table.
Proof.
  unfold next_id. induction table as [|a table IH]; [simpl; tauto|].
  cbn [fold_right In]. intros [-> | Hin]; [lia|]. specialize (IH Hin). lia.
Qed.

Lemma next_id_pos (table : list User.t) : 0 < next_id table.
Proof.
  unfold next_id. induction table as [|a table IH]; cbn [fold_right]; lia.
Qed.

Lemma row_by_email_none_notin (table : list User.t) (e : string) :
  row_by_email table e = None -> ~ In e (map User.email table).
Proof.
  intros Hn Hin. apply in_map_iff in Hin. destruct Hin as (u & Hu & Hin).
  unfold row_by_email in Hn. apply (find_none _ _ Hn) in Hin.
  rewrite Hu, String.eqb_refl in Hin. discriminate.
Qed.

Lemma NoDup_snoc {A : Type} (l : list A) (x : A) :
  NoDup l -> ~ In x l -> NoDup (l ++ [x]).
Proof.
  intros Hnd Hx. induction l as [|a l IH]; simpl.
  - constructor; [tauto | constructor].
  - inversion Hnd; subst. constructor.
    + rewrite in_app_iff. simpl. intros [Ha | [Ha | []]]; [tauto|].
      subst. apply Hx. now left.
    + apply IH; [assumption|]. intros Hin. apply Hx. now right.
Qed.

Lemma effect_keys_unique `{Externals}
  (env : Env) (st st' : list User.t) (answer : Response) :
  effect env st answer st' -> keys_unique st -> keys_unique st'.
Proof.
  unfold keys_unique.
  intros [[_ ->] | [(_ & r & u & Hin & Hch & ->) | (_ & u & Hcr & ->)]] [Hid Hem];
    [tauto | |].
  - apply changed_identity in Hch. destruct Hch as (Hi & _ & He & _).
    rewrite replace_row_ids, (replace_row_emails st r u Hid Hin Hi He). tauto.
  - destruct Hcr as (Hi & Hn & _). rewrite !map_app. simpl. split.
    + apply NoDup_snoc; [assumption|]. intros Hin.
      apply in_map_iff in Hin. destruct Hin as (x & Hx & Hin).
      apply next_id_fresh in Hin. lia.
    + apply NoDup_snoc; [assumption|]. now apply row_by_email_none_notin.
Qed.

Lemma reachable_keys_unique `{Externals} (st : list User.t) :
  reachable st -> keys_unique st.
Proof.
  induction 1 as [|env req st _ IH].
  - split; constructor.
  - exact (effect_keys_unique env st _ _ (handle_effect env req st) IH).
Qed.

(** X4.  A request that answers neither 200 nor 201 leaves the table as it
    was: whatever a handler changed before it failed is not kept. *)
Theorem failure_changes_nothing `{Externals}
  (env : Env) (req : Request) (st : list User.t) :
  status (fst (handle env req st)) <> 200 ->
  status (fst (handle env req st)) <> 201 ->
  snd (handle env req st) = st.
Proof.
  intros H200 H201.
  destruct (handle_effect env req st) as [[_ Hs] | [(Hs & _) | (Hs & _)]];
    [exact Hs | contradiction | contradiction].
Qed.

(** X5.  No request removes a row, and only a registration that answers 201
    adds one, exactly one. *)
Theorem table_grows_by_registration `{Externals}
  (env : Env) (req : Request) (st : list User.t) :
  List.length (snd (handle env req st))
  = if status (fst (handle env req st)) =? 201
    then S (List.length st) else List.length st.
Proof.
  destruct (handle_effect env req st)
    as [[Hs ->] | [(Hs & r & u & _ & _ & ->) | (Hs & u & _ & ->)]].
  - apply Z.eqb_neq in Hs. now rewrite Hs.
  - rewrite Hs. simpl. apply replace_row_length.
  - rewrite Hs. simpl. rewrite length_app. simpl. lia.
Qed.

Lemma row_of_app_other (table : list User.t) (u : User.t) (k : Z) :
  k <> User.id u -> row_of (table ++ [u]) k = row_of table k.
Proof.
  unfold row_of. intros Hk.
  induction table as [|a table IH]; simpl.
  - destruct (User.id u =? k) eqn:E; [lia | reflexivity].
  - destruct (User.id a =? k); [reflexivity | exact IH].
Qed.

(** X6.  A request touches the row of one primary key at most: there is a
    key such that every other key reads after the request as it did
    before. *)
Theorem one_row_at_most `{Externals}
  (env : Env) (req : Request) (st : list User.t) :
  exists k : Z,
    forall k' : Z, k' <> k ->
      row_of (snd (handle env req st)) k' = row_of st k'.
Proof.
  destruct (handle_effect env req st)
    as [[_ ->] | [(_ & r & u & _ & _ & ->) | (_ & u & _ & ->)]].
  - exists 0. reflexivity.
  - exists (User.id u). intros k' Hk. now apply row_of_replace_other.
  - exists (User.id u). intros k' Hk. now apply row_of_app_other.
Qed.

(** X7.  In every table the service can reach from the empty one, no two
    rows share a primary key and no two rows share an email. *)
Theorem reachable_keys_are_unique `{Externals} (st : list User.t) :
  reachable st ->
  NoDup (map User.id st) /\ NoDup (map User.email st).
Proof. intros Hr. exact (reachable_keys_unique st Hr). Qed.

(** ** What holds of every row *)

Lemma changed_row_ok `{Externals} (env : Env) (r u : User.t) :
  changed env r u -> row_ok r -> row_ok u.
Proof.
  unfold row_ok.
  intros Hc (Hv & Hn & Hp & Ha & Ht & Hi & Hh).
  destruct Hc; simpl; repeat split; assumption.
Qed.

Lemma created_row_ok `{Externals} (env : Env) (st : list User.t) (u : User.t) :
  created env st u -> row_ok u.
Proof.
  unfold created, row_ok.
  intros (Hi & _ & Hv & (e & He) & _ & (p & Hp) & _ & Hpl & Ht & _ & Ha).
  repeat split; try assumption.
  - rewrite He. unfold normalize.
    now rewrite <- lower_strip, lower_idem, strip_idem.
  - now rewrite Hpl.
  - rewrite Ht. discriminate.
  - rewrite Hi. apply next_id_pos.
  - exists (salt env), p. exact Hp.
Qed.

Lemma effect_rows_ok `{Externals}
  (env : Env) (st st' : list User.t) (answer : Response) :
  effect env st answer st' -> Forall row_ok st -> Forall row_ok st'.
Proof.
  intros [[_ ->] | [(_ & r & u & Hin & Hch & ->) | (_ & u & Hcr & ->)]] Hok;
    [assumption | |].
  - rewrite Forall_forall in *. intros x Hx.
    apply replace_row_In in Hx. destruct Hx as [-> | Hx]; [|auto].
    apply (changed_row_ok env r u Hch). auto.
  - apply Forall_app. split; [assumption|].
    constructor; [|constructor]. exact (created_row_ok env st u Hcr).
Qed.

Lemma reachable_rows_ok `{Externals} (st : list User.t) :
  reachable st -> Forall row_ok st.
Proof.
  induction 1 as [|env req st _ IH].
  - constructor.
  - exact (effect_rows_ok env st _ _ (handle_effect env req st) IH).
Qed.

(** X8.  In every table the service can reach from the empty one, every
    row has an email that [validate_email] accepts and that is already
    stripped and in lower case, a plan among free, pro and premium, an
    active account, a creation time, a positive key, and a password hash
    that [generate_password_hash] produced. *)
Theorem reachable_rows_are_well_formed `{Externals}
  (st : list User.t) (u : User.t) :
  reachable st -> In u st ->
  validate_email (User.email u) = true
  /\ normalize (User.email u) = User.email u
  /\ (User.plan_type u = "free" \/ User.plan_type u = "pro"
      \/ User.plan_type u = "premium")
  /\ User.is_active u = true
  /\ User.created_at u <> None
  /\ 0 < User.id u
  /\ exists salt p : string,
       User.password_hash u = generate_password_hash salt p.
Proof.
  intros Hr Hin.
  pose proof (reachable_rows_ok st Hr) as Hok.
  rewrite Forall_forall in Hok.
  destruct (Hok u Hin) as (Hv & Hn & Hp & Ha & Ht & Hi & Hh).
  apply is_plan_iff in Hp. repeat split; assumption.
Qed.

(** X9.  On a table the service can reach from the empty one, no login is
    answered "Account is deactivated": no route ever clears [is_active]. *)
Theorem login_never_reports_deactivated `{Externals}
  (env : Env) (data : json) (st : list User.t) :
  reachable st ->
  fst (handle env (Login data) st) <> error "Account is deactivated" 401.
Proof.
  intros Hr.
  assert (Hact : forall u, In u st -> User.is_active u = true).
  { pose proof (reachable_rows_ok st Hr) as Hok.
    rewrite Forall_forall in Hok. intros u Hu.
    destruct (Hok u Hu) as (_ & _ & _ & Ha & _). exact Ha. }
  clear Hr. unfold error, jsonify.
  unfold_handlers; branches; pairs; simpl; try discriminate.
  match goal with
  | Hrow : row_by_email _ _ = Some ?t, Hn : negb (User.is_active ?t) = true |- _ =>
      apply row_by_email_In in Hrow; rewrite (Hact t Hrow) in Hn; discriminate
  end.
Qed.


(** ** Reading back what was written *)

(** What [get_profile] and [check_credits] do. *)
Lemma get_profile_run `{Externals} (st : list User.t) (user_id : Z) :
  serve (get_profile user_id) st =
    (match row_of st user_id with
     | Some u => (jsonify [("user", User.to_dict u)], 200)
     | None =>
         if storable user_id then error "User not found" 404
         else error "Failed to get profile" 500
     end, st).
Proof.
  unfold serve, get_profile, try_except, bind, query_get. simpl.
  destruct (row_of st user_id); [reflexivity|].
  destruct (storable user_id); reflexivity.
Qed.

Lemma check_credits_run (st : list User.t) (user_id : Z) :
  serve (check_credits user_id) st =
    (match row_of st user_id with
     | Some u => (jsonify [("user_id", JInt (User.id u));
                           ("credits", JInt (User.credits u));
                           ("plan_type", JStr (User.plan_type u))], 200)
     | None =>
         if storable user_id then error "User not found" 404
         else error "Failed to check credits" 500
     end, st).
Proof.
  unfold serve, check_credits, try_except, bind, query_get. simpl.
  destruct (row_of st user_id); [reflexivity|].
  destruct (storable user_id); reflexivity.
Qed.

Lemma row_of_app_absent (table : list User.t) (u : User.t) :
  (forall r, In r table -> User.id r <> User.id u) ->
  row_of (table ++ [u]) (User.id u) = Some u.
Proof.
  unfold row_of. induction table as [|a table IH]; simpl; intros Hne.
  - now rewrite Z.eqb_refl.
  - destruct (User.id a =? User.id u) eqn:E.
    + apply Z.eqb_eq in E. exfalso. apply (Hne a); auto.
    + apply IH. intros r Hr. apply Hne. now right.
Qed.

Lemma row_of_app_fresh (table : list User.t) (u : User.t) :
  User.id u = next_id table -> row_of (table ++ [u]) (User.id u) = Some u.
Proof.
  intros Hid. apply row_of_app_absent.
  intros r Hr. apply next_id_fresh in Hr. lia.
Qed.

(** X11.  After a valid registration, the profile read under the id that
    the registration answered is the view that the registration answered. *)
Theorem register_then_get_profile `{Externals}
  (env : Env) (st : list User.t) (kvs : list (string * json)) (n e p : string) :
  string_fields kvs n e p -> n <> "" -> e <> "" ->
  validate_email (normalize e) = true ->
  6 <= Py.len p ->
  row_by_email st (normalize e) = None ->
  let first := serve (register env (JObj kvs)) st in
  exists u : User.t,
    member (body (fst first)) "user" = Some (User.to_dict u)
    /\ User.id u = next_id st
    /\ fst (serve (get_profile (User.id u)) (snd first))
       = (jsonify [("user", User.to_dict u)], 200).
Proof.
  intros Hf Hn He Hv Hp Hrow first. subst first.
  rewrite (register_valid_run env st kvs n e p Hf Hn He Hv Hp), Hrow.
  cbv zeta. simpl fst. simpl snd.
  set (u := User.mk _ _ _ _ _ _ _ _ _).
  exists u. split; [reflexivity|]. split; [reflexivity|].
  rewrite get_profile_run. simpl fst.
  pose proof (row_of_app_fresh st u eq_refl) as Hr. simpl in Hr.
  now rewrite Hr.
Qed.

(** X12.  After a valid registration, a login with the same password and an
    email that is the same once stripped and in lower case answers 200 with
    the view of the registered user's row, in which last_login is now the
    clock of the login and every other field is as the registration wrote
    it; this takes that the library verifies the password against its own
    hash. *)
Theorem register_then_login `{Externals}
  (env env' : Env) (st : list User.t)
  (kvs kvs' : list (string * json)) (n e p e' : string) :
  string_fields kvs n e p -> n <> "" -> e <> "" ->
  validate_email (normalize e) = true ->
  6 <= Py.len p ->
  row_by_email st (normalize e) = None ->
  login_fields kvs' e' p -> e' <> "" ->
  normalize e' = normalize e ->
  check_password_hash (generate_password_hash (salt env) p) p = true ->
  let first := serve (register env (JObj kvs)) st in
  let second := serve (login env' (JObj kvs')) (snd first) in
  exists (u u' : User.t) (view : json),
    member (body (fst first)) "user" = Some (User.to_dict u)
    /\ User.email u = normalize e
    /\ fst second
       = (jsonify [("message", JStr "Login successful"); ("user", view)], 200)
    /\ row_of (snd second) (User.id u) = Some u'
    /\ User.last_login u' = Some (now env')
    /\ User.id u' = User.id u
    /\ User.name u' = User.name u
    /\ User.email u' = User.email u
    /\ User.password_hash u' = User.password_hash u
    /\ User.credits u' = User.credits u
    /\ User.plan_type u' = User.plan_type u
    /\ User.created_at u' = User.created_at u
    /\ User.is_active u' = User.is_active u
    /\ view = User.to_dict u'
    /\ member view "last_login" = Some (JStr (isoformat (now env')))
    /\ member view "email" = Some (JStr (normalize e))
    /\ member view "id" = Some (JInt (User.id u)).
Proof.
  intros Hf Hn He Hv Hp Hrow Hf' He' Hnorm Hcheck first second.
  subst second first.
  pose proof (long_nonempty p Hp) as Hp'.
  rewrite (register_valid_run env st kvs n e p Hf Hn He Hv Hp), Hrow.
  cbv zeta. simpl fst. simpl snd.
  set (u := User.mk _ _ _ _ _ _ _ _ _).
  assert (Hu : row_by_email (st ++ [u]) (normalize e') = Some u).
  { rewrite Hnorm. apply (row_by_email_last st u). exact Hrow. }
  rewrite (login_run env' (st ++ [u]) kvs' e' p Hf' He' Hp'), Hu.
  replace (check_password_hash (User.password_hash u) p) with true
    by (symmetry; exact Hcheck).
  simpl negb. cbv iota zeta. simpl fst. simpl snd.
  exists u, (User.with_last_login u (Some (now env'))).
  eexists. split; [reflexivity|]. split; [reflexivity|].
  split; [reflexivity|]. split.
  - change (User.id u)
      with (User.id (User.with_last_login u (Some (now env')))).
    apply row_of_replace_same with (u := u).
    apply (row_of_app_fresh st u eq_refl).
  - repeat split.
Qed.

(** X13.  Two logins with the same password whose emails are the same once
    stripped and in lower case get the same answer and leave the same
    table: the email of a login is insensitive to case and to white space
    around it. *)
Theorem login_ignores_case_and_spaces `{Externals}
  (env : Env) (st : list User.t)
  (kvs1 kvs2 : list (string * json)) (e1 e2 p : string) :
  login_fields kvs1 e1 p -> login_fields kvs2 e2 p ->
  e1 <> "" -> e2 <> "" -> p <> "" ->
  normalize e1 = normalize e2 ->
  serve (login env (JObj kvs1)) st = serve (login env (JObj kvs2)) st.
Proof.
  intros Hf1 Hf2 He1 He2 Hp Hnorm.
  rewrite (login_run env st kvs1 e1 p Hf1 He1 Hp).
  rewrite (login_run env st kvs2 e2 p Hf2 He2 Hp).
  now rewrite Hnorm.
Qed.

(** X14.  A login with two non-empty strings answers 200 exactly when a
    row has the email (stripped, in lower case), the password verifies
    against its hash and the account is active. *)
Theorem login_succeeds_iff `{Externals}
  (env : Env) (st : list User.t) (kvs : list (string * json)) (e p : string) :
  login_fields kvs e p -> e <> "" -> p <> "" ->
  (status (fst (serve (login env (JObj kvs)) st)) = 200
   <-> exists u : User.t,
         row_by_email st (normalize e) = Some u
         /\ check_password_hash (User.password_hash u) p = true
         /\ User.is_active u = true).
Proof.
  intros Hf He Hp. rewrite (login_run env st kvs e p Hf He Hp).
  destruct (row_by_email st (normalize e)) as [u|].
  - destruct (check_password_hash (User.password_hash u) p) eqn:Hc;
      destruct (User.is_active u) eqn:Ha; simpl; split;
      try discriminate; try (intros (u' & Hu & Hc' & Ha'); inversion Hu; subst; congruence).
    intros _. exists u. auto.
  - simpl. split; [discriminate|]. intros (u' & Hu & _). discriminate.
Qed.



(** ** Refusals *)

(** What [register] does with three non-empty strings. *)
Lemma register_run `{Externals}
  (env : Env) (st : list User.t) (kvs : list (string * json)) (n e p : string) :
  string_fields kvs n e p -> n <> "" -> e <> "" -> p <> "" ->
  serve (register env (JObj kvs)) st =
    if negb (validate_email (normalize e))
    then (error "Invalid email format" 400, st)
    else if Py.len p <? 6
    then (error "Password must be at least 6 characters long" 400, st)
    else
      match row_by_email st (normalize e) with
      | Some _ => (error "Email already registered" 409, st)
      | None =>
          let u := User.mk (next_id st) (Py.strip n) (normalize e)
                     (generate_password_hash (salt env) p)
                     100 "free" (Some (now env)) None true in
          (jsonify [("message", JStr "Account created successfully");
                    ("user", User.to_dict u)], 201,
           (st ++ [u])%list)
      end.
Proof.
  intros Hf Hn He Hp.
  destruct (validate_email (normalize e)) eqn:Hv; simpl.
  - destruct (Py.len p <? 6) eqn:Hl.
    + unfold serve, register, try_except, bind, lift.
      rewrite (first_missing_none kvs n e p Hf Hn He Hp).
      destruct Hf as (Hfn & Hfe & Hfp).
      unfold dict_item. rewrite Hfn, Hfe, Hfp. simpl.
      fold (normalize e). rewrite Hv. simpl.
      unfold validate_password, py_len. rewrite Hl. reflexivity.
    + apply Z.ltb_ge in Hl.
      apply (register_valid_run env st kvs n e p Hf Hn He Hv Hl).
  - unfold serve, register, try_except, bind, lift.
    rewrite (first_missing_none kvs n e p Hf Hn He Hp).
    destruct Hf as (Hfn & Hfe & Hfp).
    unfold dict_item. rewrite Hfn, Hfe, Hfp. simpl.
    fold (normalize e). rewrite Hv. reflexivity.
Qed.

(** X17.  With the three fields present, register checks the format of the
    email before the length of the password, and both before it looks the
    email up: a malformed email answers 400 "Invalid email format"
    whatever the password, a well-formed one with a password under 6
    characters answers 400 with the password message, registered or not,
    and the table is unchanged. *)
Theorem register_checks_email_then_password `{Externals}
  (env : Env) (st : list User.t) (kvs : list (string * json)) (n e p : string) :
  string_fields kvs n e p -> n <> "" -> e <> "" -> p <> "" ->
  (validate_email (normalize e) = false ->
   serve (register env (JObj kvs)) st = (error "Invalid email format" 400, st))
  /\ (validate_email (normalize e) = true -> Py.len p < 6 ->
      serve (register env (JObj kvs)) st
      = (error "Password must be at least 6 characters long" 400, st)).
Proof.
  intros Hf Hn He Hp.
  rewrite (register_run env st kvs n e p Hf Hn He Hp). split.
  - intros ->. reflexivity.
  - intros -> Hl. apply Z.ltb_lt in Hl. rewrite Hl. reflexivity.
Qed.

Lemma absent_or_false_string (kvs : list (string * json)) (field : string) :
  assoc field kvs = None \/ (exists s, assoc field kvs = Some (JStr s)) ->
  absent_or_false kvs field = true
  \/ exists s, assoc field kvs = Some (JStr s) /\ s <> "".
Proof.
  unfold absent_or_false. intros [-> | (s & ->)]; [now left|].
  destruct s as [|c s]; [now left | right].
  exists (String c s). split; [reflexivity | discriminate].
Qed.

(** X18.  A registration whose name, email and password are each absent or
    a string of characters below code point 256 (every such string encodes,
    so hashing the password does not fail) is answered 201, 400 or 409,
    never 500: the commit of a registration that passed the lookup of the
    email does not fail. *)
Theorem register_of_strings_never_fails `{Externals}
  (env : Env) (st : list User.t) (kvs : list (string * json)) :
  (forall field, In field required_fields ->
     assoc field kvs = None \/ exists s, assoc field kvs = Some (JStr s)) ->
  let code := status (fst (serve (register env (JObj kvs)) st)) in
  code = 201 \/ code = 400 \/ code = 409.
Proof.
  intros Hstr code. subst code.
  destruct (absent_or_false_string kvs "name" (Hstr "name" ltac:(simpl; auto)))
    as [Hn | (n & Hfn & Hn)].
  { rewrite (register_missing_run env st (JObj kvs) "name"); [simpl; auto|].
    unfold required_fields. now rewrite first_missing_cons, Hn. }
  assert (Hn' : absent_or_false kvs "name" = false).
  { unfold absent_or_false. rewrite Hfn. simpl. now rewrite nonempty_eqb. }
  destruct (absent_or_false_string kvs "email" (Hstr "email" ltac:(simpl; auto)))
    as [He | (e & Hfe & He)].
  { rewrite (register_missing_run env st (JObj kvs) "email"); [simpl; auto|].
    unfold required_fields. now rewrite !first_missing_cons, Hn', He. }
  assert (He' : absent_or_false kvs "email" = false).
  { unfold absent_or_false. rewrite Hfe. simpl. now rewrite nonempty_eqb. }
  destruct (absent_or_false_string kvs "password"
              (Hstr "password" ltac:(simpl; auto)))
    as [Hp | (p & Hfp & Hp)].
  { rewrite (register_missing_run env st (JObj kvs) "password"); [simpl; auto|].
    unfold required_fields. now rewrite !first_missing_cons, Hn', He', Hp. }
  rewrite (register_run env st kvs n e p (conj Hfn (conj Hfe Hfp)) Hn He Hp).
  destruct (validate_email (normalize e)); simpl; auto.
  destruct (Py.len p <? 6); simpl; auto.
  destruct (row_by_email st (normalize e)); simpl; auto.
Qed.

(** X19.  For a key that no row has and that is in the range the driver
    binds, get-profile, check-credits and use-credit answer 404 "User not
    found"; add-credits and upgrade-plan validate the body first, so they
    answer 400 for a non-positive amount or an unknown plan and 404
    otherwise.  For a key beyond the range the lookup raises, and each
    route answers its own 500 where it would have answered 404.  The table
    is unchanged. *)
Theorem unknown_user_is_not_found `{Externals}
  (st : list User.t) (user_id : Z) (amount : Z) (plan : string) :
  row_of st user_id = None ->
  (integer_min <= user_id <= integer_max ->
   serve (get_profile user_id) st = (error "User not found" 404, st)
   /\ serve (check_credits user_id) st = (error "User not found" 404, st)
   /\ serve (use_credit user_id) st = (error "User not found" 404, st)
   /\ serve (add_credits user_id (JObj [("amount", JInt amount)])) st
      = (if amount <=? 0 then error "Invalid credit amount" 400
         else error "User not found" 404, st)
   /\ serve (upgrade_plan user_id (JObj [("plan_type", JStr plan)])) st
      = (if is_plan (Py.lower plan) then error "User not found" 404
         else error "Invalid plan type" 400, st))
  /\ (integer_max < user_id ->
      serve (get_profile user_id) st = (error "Failed to get profile" 500, st)
      /\ serve (check_credits user_id) st
         = (error "Failed to check credits" 500, st)
      /\ serve (use_credit user_id) st = (error "Failed to use credit" 500, st)
      /\ serve (add_credits user_id (JObj [("amount", JInt amount)])) st
         = (if amount <=? 0 then error "Invalid credit amount" 400
            else error "Failed to add credits" 500, st)
      /\ serve (upgrade_plan user_id (JObj [("plan_type", JStr plan)])) st
         = (if is_plan (Py.lower plan) then error "Failed to upgrade plan" 500
            else error "Invalid plan type" 400, st)).
Proof.
  intros Hrow.
  rewrite get_profile_run, check_credits_run, Hrow.
  split; intros Hk.
  - apply storable_iff in Hk. rewrite Hk. repeat split.
    + unfold serve, use_credit, try_except, bind, query_get. simpl.
      now rewrite Hrow, Hk.
    + unfold serve, add_credits, try_except, bind, lift, query_get. simpl.
      destruct (amount <=? 0); simpl; [reflexivity | now rewrite Hrow, Hk].
    + unfold serve, upgrade_plan, try_except, bind, lift, query_get. simpl.
      destruct (is_plan (Py.lower plan)); simpl;
        [now rewrite Hrow, Hk | reflexivity].
  - assert (Hs : storable user_id = false).
    { destruct (storable user_id) eqn:E; [|reflexivity].
      apply storable_iff in E. lia. }
    rewrite Hs. repeat split.
    + unfold serve, use_credit, try_except, bind, query_get. simpl.
      now rewrite Hrow, Hs.
    + unfold serve, add_credits, try_except, bind, lift, query_get. simpl.
      destruct (amount <=? 0); simpl; [reflexivity | now rewrite Hrow, Hs].
    + unfold serve, upgrade_plan, try_except, bind, lift, query_get. simpl.
      destruct (is_plan (Py.lower plan)); simpl;
        [now rewrite Hrow, Hs | reflexivity].
Qed.

(** X20.  A body that is no JSON object (null, a number, a string, an
    array) makes register, login, add-credits and upgrade-plan answer 500
    with the message of the route, and the table is unchanged. *)
Theorem body_must_be_an_object `{Externals}
  (env : Env) (st : list User.t) (user_id : Z) (data : json) :
  not_a_dict data ->
  serve (register env data) st = (error "Registration failed" 500, st)
  /\ serve (login env data) st = (error "Login failed" 500, st)
  /\ serve (add_credits user_id data) st = (error "Failed to add credits" 500, st)
  /\ serve (upgrade_plan user_id data) st
     = (error "Failed to upgrade plan" 500, st).
Proof.
  intros Hd. destruct data; simpl in Hd; try contradiction;
    repeat split; reflexivity.
Qed.


(** X22.  Get-profile, check-credits and health never change the table. *)
Theorem reads_change_nothing `{Externals}
  (env : Env) (st : list User.t) (user_id : Z) :
  snd (handle env (GetProfile user_id) st) = st
  /\ snd (handle env (CheckCredits user_id) st) = st
  /\ snd (handle env HealthCheck st) = st.
Proof.
  unfold handle, route.
  rewrite get_profile_run, check_credits_run. repeat split.
Qed.

(** X23.  Check-credits and get-profile read the same row: they answer with
    the same status; the id, credits and plan that check-credits answers
    are those of the profile's view; and where no row has the key both
    answer 404 "User not found" for a key in the range the driver binds,
    and each its own 500 for a key beyond it. *)
Theorem check_credits_agrees_with_profile `{Externals}
  (st : list User.t) (user_id : Z) :
  let profile := fst (serve (get_profile user_id) st) in
  let check := fst (serve (check_credits user_id) st) in
  status check = status profile
  /\ match member (body profile) "user" with
     | Some view =>
         member (body check) "user_id" = member view "id"
         /\ member (body check) "credits" = member view "credits"
         /\ member (body check) "plan_type" = member view "plan_type"
     | None =>
         if storable user_id
         then check = error "User not found" 404
              /\ profile = error "User not found" 404
         else check = error "Failed to check credits" 500
              /\ profile = error "Failed to get profile" 500
     end.
Proof.
  rewrite get_profile_run, check_credits_run.
  destruct (row_of st user_id); simpl; [repeat split|].
  destruct (storable user_id); simpl; repeat split.
Qed.

(** ** Credits that are no integers *)

(** On integers the methods of [Num] are the methods of [User]. *)
Lemma use_credit_on_integers (u : User.t) :
  Num.use_credit (Num.Int (User.credits u))
  = (fst (User.use_credit u), Num.Int (User.credits (snd (User.use_credit u)))).
Proof.
  unfold Num.use_credit, User.use_credit. simpl.
  destruct (User.credits u >? 0); reflexivity.
Qed.

Lemma add_credits_on_integers (u : User.t) (amount : Z) :
  Num.add_credits (Num.Int (User.credits u)) (Num.Int amount)
  = Ok (Num.Int (User.credits (User.add_credits u amount))).
Proof. reflexivity. Qed.

(** C7, where the code breaks it.  The amount 0.5 passes the test
    [amount <= 0] of add-credits; added to the 100 credits of a new user it
    gives 100.5; [use_credit] then answers True 101 times, the last time on
    0.5 credits, and leaves -0.5 credits, which is negative. *)
Theorem fractional_amount_drives_credits_negative :
  Num.le_zero (Num.Float 0.5) = false
  /\ Num.add_credits (Num.Int 100) (Num.Float 0.5) = Ok (Num.Float 100.5)
  /\ Num.use_credits 100 (Num.Float 100.5) = (repeat true 100, Num.Float 0.5)
  /\ Num.use_credit (Num.Float 0.5) = (true, Num.Float (-0.5))
  /\ Num.use_credits 101 (Num.Float 100.5) = (repeat true 101, Num.Float (-0.5))
  /\ Num.lt_zero (Num.Float (-0.5)) = true.
Proof. repeat split; vm_compute; reflexivity. Qed.

(** X15.  On credits that are an integer [c >= 0], [use_credit] called [n]
    times answers True the first [min n c] times and False from then on,
    and leaves [c - min n c] credits: an integer balance pays for exactly
    that many uses and never goes below 0. *)
Theorem integer_credits_pay_for_that_many_uses (n : nat) (c : Z) :
  0 <= c ->
  Num.use_credits n (Num.Int c)
  = ((repeat true (Nat.min n (Z.to_nat c))
      ++ repeat false (n - Z.to_nat c))%list,
     Num.Int (c - Z.of_nat (Nat.min n (Z.to_nat c)))).
Proof.
  revert c. induction n as [|n IH]; intros c Hc.
  - simpl. now rewrite Z.sub_0_r.
  - cbn [Num.use_credits]. unfold Num.use_credit. cbn [Num.gt_zero Num.sub_one].
    destruct (c >? 0) eqn:Hpos.
    + rewrite (IH (c - 1)) by lia.
      assert (Hnat : Z.to_nat c = S (Z.to_nat (c - 1))) by lia.
      rewrite Hnat. cbn [Nat.min Nat.sub repeat app].
      do 2 f_equal. lia.
    + assert (Hz : c = 0) by lia. subst c.
      rewrite (IH 0) by lia. simpl Z.to_nat.
      rewrite !Nat.min_0_r, !Nat.sub_0_r. reflexivity.
Qed.

(** ** Worked requests *)

#[local] Existing Instance stand_in.

Example validate_email_examples :
  validate_email "ann@test.com" = true
  /\ validate_email "a.b+c@x-y.z.co" = true
  /\ validate_email "ann@test" = false
  /\ validate_email "ann@test.c" = false
  /\ validate_email "@test.com" = false
  /\ validate_email "ann smith@test.com" = false
  /\ validate_email "" = false.
Proof. repeat split; reflexivity. Qed.

(** The example of the specification: Ann registers, then registers again
    with the same email in lower case. *)
Example register_ann_twice :
  let first := handle env0 (Register (JObj ann_registers)) [] in
  let second := handle env0 (Register (JObj ann_registers_again)) (snd first) in
  snd first = [ann]
  /\ status (fst first) = 201
  /\ second = (error "Email already registered" 409, [ann]).
Proof. repeat split; reflexivity. Qed.

(** Credits 1: one use succeeds with 0 remaining, the next fails. *)
Example use_last_credit :
  let one := User.with_credits ann 1 in
  let first := serve (use_credit 1) [one] in
  let second := serve (use_credit 1) (snd first) in
  member (body (fst first)) "remaining_credits" = Some (JInt 0)
  /\ status (fst first) = 200
  /\ second = (error "No credits remaining" 400, [User.with_credits ann 0]).
Proof. repeat split; reflexivity. Qed.


Lemma register_creates_free_user_witness :
  string_fields ann_registers "Ann" "ANN@Test.com" "secret1"
  /\ validate_email (normalize "ANN@Test.com") = true
  /\ 6 <= Py.len "secret1"
  /\ row_by_email [bob] (normalize "ANN@Test.com") = None
  /\ exists u : User.t,
       serve (register env0 (JObj ann_registers)) [bob]
         = (jsonify [("message", JStr "Account created successfully");
                     ("user", User.to_dict u)], 201, [bob; u])
       /\ User.credits u = 100
       /\ User.plan_type u = "free"
       /\ User.is_active u = true
       /\ User.password_hash u = "s$secret1"
       /\ exists view : json,
            member (body (fst (serve (register env0 (JObj ann_registers)) [bob])))
              "user" = Some view
            /\ member view "credits" = Some (JInt 100)
            /\ member view "plan_type" = Some (JStr "free")
            /\ member view "is_active" = Some (JBool true)
            /\ member view "email" = Some (JStr "ann@test.com").
Proof.
  assert (Hf : string_fields ann_registers "Ann" "ANN@Test.com" "secret1")
    by (repeat split; reflexivity).
  assert (Hl : 6 <= Py.len "secret1") by (vm_compute; discriminate).
  split; [exact Hf|]. split; [reflexivity|]. split; [exact Hl|].
  split; [reflexivity|].
  destruct (register_creates_free_user env0 [bob] ann_registers
              "Ann" "ANN@Test.com" "secret1" Hf
              ltac:(discriminate) ltac:(discriminate) ltac:(discriminate)
              eq_refl Hl eq_refl)
    as (u & Hrun & Hc & Hp & Ha & Hh & _ & _ & view & Hview & Hvc & Hvp & Hva
        & _ & Hve & _).
  exists u. repeat split; try assumption.
  exists view. repeat split; assumption.
Defined.

Lemma register_twice_one_conflict_witness :
  normalize "ANN@Test.com" = normalize " ann@test.com "
  /\ row_by_email [bob] (normalize "ANN@Test.com") = None
  /\ let first := serve (register env0 (JObj ann_registers)) [bob] in
     let second := serve (register env0 (JObj ann_registers_again)) (snd first) in
     status (fst first) = 201
     /\ fst second = error "Email already registered" 409
     /\ count_email (snd second) "ann@test.com" = 1%nat.
Proof.
  split; [reflexivity|]. split; [reflexivity|].
  apply (register_twice_one_conflict env0 env0 [bob]
           ann_registers ann_registers_again
           "Ann" "ANN@Test.com" "secret1" "Ann" " ann@test.com " "secret2").
  - repeat split; reflexivity.
  - discriminate.
  - discriminate.
  - repeat split; reflexivity.
  - discriminate.
  - discriminate.
  - reflexivity.
  - reflexivity.
  - vm_compute; discriminate.
  - vm_compute; discriminate.
  - reflexivity.
Defined.

Lemma login_failures_share_status_only_witness :
  let st := [ann; bob] in
  row_by_email st (normalize "bob@test.com") = Some bob
  /\ check_password_hash (User.password_hash bob) "hunter22" = true
  /\ User.is_active bob = false
  /\ row_by_email st (normalize "ann@test.com") = Some ann
  /\ check_password_hash (User.password_hash ann) "guess99" = false
  /\ row_by_email st (normalize "carol@test.com") = None
  /\ let deactivated :=
       fst (serve (login env0 (JObj (credentials "bob@test.com" "hunter22"))) st) in
     let wrong_password :=
       fst (serve (login env0 (JObj (credentials "ann@test.com" "guess99"))) st) in
     let unknown_email :=
       fst (serve (login env0 (JObj (credentials "carol@test.com" "guess99"))) st) in
     wrong_password = error "Invalid email or password" 401
     /\ unknown_email = wrong_password
     /\ deactivated = error "Account is deactivated" 401
     /\ status deactivated = status wrong_password
     /\ deactivated <> wrong_password.
Proof.
  intros st. repeat (split; [reflexivity|]).
  apply (login_failures_share_status_only env0 st
           (credentials "bob@test.com" "hunter22")
           (credentials "ann@test.com" "guess99")
           (credentials "carol@test.com" "guess99")
           "bob@test.com" "hunter22" "ann@test.com" "guess99"
           "carol@test.com" "guess99" bob ann);
    try discriminate; try reflexivity; split; reflexivity.
Defined.

(** C3 as it is stated fails: Bob's account is deactivated, his password is
    right, and the answer differs from the answer to a wrong password. *)
Lemma login_deactivated_is_distinguishable :
  User.is_active bob = false
  /\ check_password_hash (User.password_hash bob) "hunter22" = true
  /\ check_password_hash (User.password_hash bob) "guess99" = false
  /\ fst (serve (login env0 (JObj (credentials "bob@test.com" "hunter22"))) [ann; bob])
     = error "Account is deactivated" 401
  /\ fst (serve (login env0 (JObj (credentials "bob@test.com" "guess99"))) [ann; bob])
     = error "Invalid email or password" 401
  /\ fst (serve (login env0 (JObj (credentials "bob@test.com" "hunter22"))) [ann; bob])
     <> fst (serve (login env0 (JObj (credentials "bob@test.com" "guess99"))) [ann; bob]).
Proof. repeat split; try reflexivity. vm_compute. discriminate. Qed.





Lemma credits_never_negative_witness :
  let st := snd (handle env0 (Register (JObj ann_registers)) []) in
  reachable st
  /\ In (User.with_credits ann 99) (snd (handle env0 (UseCredit 1) st))
  /\ 0 <= User.credits (User.with_credits ann 99).
Proof.
  intros st.
  assert (Hreach : reachable st)
    by (apply (reach_step env0 (Register (JObj ann_registers)) []);
        apply reach_empty).
  assert (Hin : In (User.with_credits ann 99) (snd (handle env0 (UseCredit 1) st)))
    by (left; reflexivity).
  split; [exact Hreach|]. split; [exact Hin|].
  exact (credits_never_negative st env0 (UseCredit 1) _ Hreach Hin).
Defined.

Lemma public_view_has_no_password_hash_witness :
  let answer := body (fst (handle env0 (GetProfile 1) [ann; bob])) in
  member answer "user" = Some (User.to_dict ann)
  /\ has_key "password_hash" answer = false
  /\ keys (User.to_dict ann) = public_fields
  /\ ~ In "password_hash" (keys (User.to_dict ann)).
Proof.
  intros answer.
  destruct (public_view_has_no_password_hash env0 (GetProfile 1) [ann; bob])
    as [Hkey Hview].
  destruct (Hview (User.to_dict ann) eq_refl) as (_ & Hkeys & Hnot).
  split; [reflexivity|]. split; [exact Hkey|]. split; [exact Hkeys | exact Hnot].
Defined.

Lemma register_reports_first_missing_field_witness :
  let no_email := [("name", JStr "Ann"); ("email", JStr "")] in
  absent_or_false no_email "name" = false
  /\ absent_or_false no_email "email" = true
  /\ absent_or_false no_email "password" = true
  /\ serve (register env0 (JObj no_email)) [bob]
     = (error "email is required" 400, [bob]).
Proof.
  intros no_email. repeat (split; [reflexivity|]).
  destruct (register_reports_first_missing_field env0 [bob] no_email)
    as (_ & Hemail & _).
  exact (Hemail eq_refl eq_refl).
Defined.

(** C9 as it is stated fails: a password of six spaces is empty once
    stripped, yet the registration answers 201 and the user is created. *)
Lemma register_accepts_blank_password :
  let blank := [("name", JStr "Ann"); ("email", JStr "ann@test.com");
                ("password", JStr "      ")] in
  Py.strip "      " = ""
  /\ status (fst (serve (register env0 (JObj blank)) [])) = 201
  /\ snd (serve (register env0 (JObj blank)) [])
     = [User.with_password_hash ann "s$      "].
Proof. repeat split; reflexivity. Qed.

(** A blank email is refused by the format check, not as a missing field. *)
Example register_blank_email :
  serve (register env0 (JObj [("name", JStr "Ann"); ("email", JStr "   ");
                              ("password", JStr "secret1")])) []
  = (error "Invalid email format" 400, []).
Proof. reflexivity. Qed.

Lemma login_failure_changes_nothing_witness :
  let st := [ann; bob] in
  (let result := serve (login env0 (JObj (credentials "ann@test.com" "guess99"))) st in
   status (fst result) <> 200 /\ snd result = st)
  /\ (let result := serve (login env0 (JObj (credentials "bob@test.com" "hunter22"))) st in
      status (fst result) <> 200 /\ snd result = st)
  /\ (let result := serve (login env0 (JObj (credentials "ann@test.com" "secret1"))) st in
      status (fst result) = 200
      /\ exists u : User.t,
           In u st
           /\ snd result = replace_row st (User.with_last_login u (Some 1000))).
Proof.
  intros st.
  assert (Hne : forall r : Response, status r = 401 -> status r <> 200)
    by (intros r Hr; rewrite Hr; discriminate).
  split; [|split].
  - destruct (login_failure_changes_nothing env0
                (JObj (credentials "ann@test.com" "guess99")) st) as [Hfail _].
    split; [apply Hne; reflexivity | apply Hfail; apply Hne; reflexivity].
  - destruct (login_failure_changes_nothing env0
                (JObj (credentials "bob@test.com" "hunter22")) st) as [Hfail _].
    split; [apply Hne; reflexivity | apply Hfail; apply Hne; reflexivity].
  - destruct (login_failure_changes_nothing env0
                (JObj (credentials "ann@test.com" "secret1")) st) as [_ Hok].
    split; [reflexivity | exact (Hok eq_refl)].
Defined.

(** ** Further worked requests *)

Lemma validate_email_shape_witness :
  validate_email "ann@test.com" = true
  /\ exists local_part domain tld ending : string,
       "ann@test.com" = local_part ++ "@" ++ domain ++ "." ++ tld ++ ending
       /\ local_part <> "" /\ all_in is_local_char local_part = true
       /\ domain <> "" /\ all_in is_domain_char domain = true
       /\ (2 <= String.length tld)%nat /\ all_in is_alpha tld = true
       /\ (ending = "" \/ ending = line_feed).
Proof.
  split; [reflexivity|].
  exact (proj1 (validate_email_shape "ann@test.com") eq_refl).
Defined.

Lemma stored_email_shape_witness :
  validate_email "ann@test.com" = true
  /\ normalize "ann@test.com" = "ann@test.com"
  /\ exists local_part domain tld : string,
       "ann@test.com" = local_part ++ "@" ++ domain ++ "." ++ tld
       /\ local_part <> "" /\ all_in is_local_char local_part = true
       /\ domain <> "" /\ all_in is_domain_char domain = true
       /\ (2 <= String.length tld)%nat /\ all_in is_alpha tld = true.
Proof.
  split; [reflexivity|]. split; [reflexivity|].
  exact (stored_email_shape "ann@test.com" eq_refl eq_refl).
Defined.

Lemma failure_changes_nothing_witness :
  let req := Login (JObj (credentials "ann@test.com" "guess99")) in
  status (fst (handle env0 req [ann; bob])) <> 200
  /\ status (fst (handle env0 req [ann; bob])) <> 201
  /\ snd (handle env0 req [ann; bob]) = [ann; bob].
Proof.
  intros req.
  assert (H200 : status (fst (handle env0 req [ann; bob])) <> 200)
    by (vm_compute; discriminate).
  assert (H201 : status (fst (handle env0 req [ann; bob])) <> 201)
    by (vm_compute; discriminate).
  split; [exact H200|]. split; [exact H201|].
  exact (failure_changes_nothing env0 req [ann; bob] H200 H201).
Defined.

Lemma reachable_keys_are_unique_witness :
  let st := snd (handle env0 (Register (JObj ann_registers)) []) in
  reachable st
  /\ NoDup (map User.id st) /\ NoDup (map User.email st).
Proof.
  intros st.
  assert (Hreach : reachable st)
    by (apply (reach_step env0 (Register (JObj ann_registers)) []);
        apply reach_empty).
  split; [exact Hreach|].
  exact (reachable_keys_are_unique st Hreach).
Defined.

Lemma reachable_rows_are_well_formed_witness :
  let st := snd (handle env0 (Register (JObj ann_registers)) []) in
  reachable st
  /\ In ann st
  /\ validate_email (User.email ann) = true
  /\ normalize (User.email ann) = User.email ann
  /\ (User.plan_type ann = "free" \/ User.plan_type ann = "pro"
      \/ User.plan_type ann = "premium")
  /\ User.is_active ann = true
  /\ User.created_at ann <> None
  /\ 0 < User.id ann
  /\ exists salt p : string,
       User.password_hash ann = generate_password_hash salt p.
Proof.
  intros st.
  assert (Hreach : reachable st)
    by (apply (reach_step env0 (Register (JObj ann_registers)) []);
        apply reach_empty).
  assert (Hin : In ann st) by (left; reflexivity).
  split; [exact Hreach|]. split; [exact Hin|].
  exact (reachable_rows_are_well_formed st ann Hreach Hin).
Defined.

Lemma login_never_reports_deactivated_witness :
  let st := snd (handle env0 (Register (JObj ann_registers)) []) in
  reachable st
  /\ fst (handle env0 (Login (JObj (credentials "ann@test.com" "secret1"))) st)
     <> error "Account is deactivated" 401.
Proof.
  intros st.
  assert (Hreach : reachable st)
    by (apply (reach_step env0 (Register (JObj ann_registers)) []);
        apply reach_empty).
  split; [exact Hreach|].
  exact (login_never_reports_deactivated env0
           (JObj (credentials "ann@test.com" "secret1")) st Hreach).
Defined.


Lemma register_then_get_profile_witness :
  string_fields ann_registers "Ann" "ANN@Test.com" "secret1"
  /\ validate_email (normalize "ANN@Test.com") = true
  /\ 6 <= Py.len "secret1"
  /\ row_by_email [bob] (normalize "ANN@Test.com") = None
  /\ let first := serve (register env0 (JObj ann_registers)) [bob] in
     exists u : User.t,
       member (body (fst first)) "user" = Some (User.to_dict u)
       /\ User.id u = next_id [bob]
       /\ fst (serve (get_profile (User.id u)) (snd first))
          = (jsonify [("user", User.to_dict u)], 200).
Proof.
  assert (Hf : string_fields ann_registers "Ann" "ANN@Test.com" "secret1")
    by (repeat split; reflexivity).
  assert (Hl : 6 <= Py.len "secret1") by (vm_compute; discriminate).
  split; [exact Hf|]. split; [reflexivity|]. split; [exact Hl|].
  split; [reflexivity|].
  exact (register_then_get_profile env0 [bob] ann_registers
           "Ann" "ANN@Test.com" "secret1" Hf
           ltac:(discriminate) ltac:(discriminate) eq_refl Hl eq_refl).
Defined.

Lemma register_then_login_witness :
  string_fields ann_registers "Ann" "ANN@Test.com" "secret1"
  /\ login_fields (credentials " Ann@test.COM " "secret1") " Ann@test.COM " "secret1"
  /\ normalize " Ann@test.COM " = normalize "ANN@Test.com"
  /\ check_password_hash (generate_password_hash (salt env0) "secret1") "secret1"
     = true
  /\ let first := serve (register env0 (JObj ann_registers)) [bob] in
     let second :=
       serve (login (Build_Env 2000 "t")
                (JObj (credentials " Ann@test.COM " "secret1")))
         (snd first) in
     exists (u u' : User.t) (view : json),
       member (body (fst first)) "user" = Some (User.to_dict u)
       /\ fst second
          = (jsonify [("message", JStr "Login successful"); ("user", view)], 200)
       /\ row_of (snd second) (User.id u) = Some u'
       /\ User.last_login u' = Some 2000
       /\ User.credits u' = User.credits u
       /\ member view "last_login" = Some (JStr "2000")
       /\ member view "email" = Some (JStr "ann@test.com").
Proof.
  assert (Hf : string_fields ann_registers "Ann" "ANN@Test.com" "secret1")
    by (repeat split; reflexivity).
  assert (Hf' : login_fields (credentials " Ann@test.COM " "secret1")
                  " Ann@test.COM " "secret1")
    by (split; reflexivity).
  assert (Hl : 6 <= Py.len "secret1") by (vm_compute; discriminate).
  split; [exact Hf|]. split; [exact Hf'|]. split; [reflexivity|].
  split; [reflexivity|].
  destruct (register_then_login env0 (Build_Env 2000 "t") [bob] ann_registers
              (credentials " Ann@test.COM " "secret1")
              "Ann" "ANN@Test.com" "secret1" " Ann@test.COM " Hf
              ltac:(discriminate) ltac:(discriminate) eq_refl Hl eq_refl
              Hf' ltac:(discriminate) eq_refl eq_refl)
    as (u & u' & view & Hfirst & _ & Hsecond & Hrow & Hlast & _ & _ & _ & _
        & Hcred & _ & _ & _ & _ & Hvl & Hve & _).
  exists u, u', view. repeat (split; [assumption|]). exact Hve.
Defined.

Lemma login_ignores_case_and_spaces_witness :
  normalize "ann@test.com" = normalize "  ANN@TEST.COM"
  /\ serve (login env0 (JObj (credentials "ann@test.com" "secret1"))) [ann; bob]
     = serve (login env0 (JObj (credentials "  ANN@TEST.COM" "secret1"))) [ann; bob].
Proof.
  split; [reflexivity|].
  apply (login_ignores_case_and_spaces env0 [ann; bob]
           (credentials "ann@test.com" "secret1")
           (credentials "  ANN@TEST.COM" "secret1")
           "ann@test.com" "  ANN@TEST.COM" "secret1").
  - split; reflexivity.
  - split; reflexivity.
  - discriminate.
  - discriminate.
  - discriminate.
  - reflexivity.
Defined.

Lemma login_succeeds_iff_witness :
  login_fields (credentials "ann@test.com" "secret1") "ann@test.com" "secret1"
  /\ status (fst (serve (login env0 (JObj (credentials "ann@test.com" "secret1")))
                    [ann; bob])) = 200
  /\ exists u : User.t,
       row_by_email [ann; bob] (normalize "ann@test.com") = Some u
       /\ check_password_hash (User.password_hash u) "secret1" = true
       /\ User.is_active u = true.
Proof.
  assert (Hf : login_fields (credentials "ann@test.com" "secret1")
                 "ann@test.com" "secret1")
    by (split; reflexivity).
  split; [exact Hf|]. split; [reflexivity|].
  exact (proj1 (login_succeeds_iff env0 [ann; bob]
                  (credentials "ann@test.com" "secret1")
                  "ann@test.com" "secret1" Hf
                  ltac:(discriminate) ltac:(discriminate))
           eq_refl).
Defined.

Lemma integer_credits_pay_for_that_many_uses_witness :
  0 <= 2
  /\ Num.use_credits 4 (Num.Int 2) = ([true; true; false; false], Num.Int 0).
Proof.
  assert (Hc : 0 <= 2) by discriminate.
  split; [exact Hc|].
  exact (integer_credits_pay_for_that_many_uses 4 2 Hc).
Defined.


Lemma register_checks_email_then_password_witness :
  let bad_email := [("name", JStr "Ann"); ("email", JStr "ann.test.com");
                    ("password", JStr "abc")] in
  let short := [("name", JStr "Ann"); ("email", JStr "ann@test.com");
                ("password", JStr "abc")] in
  validate_email (normalize "ann.test.com") = false
  /\ serve (register env0 (JObj bad_email)) [ann]
     = (error "Invalid email format" 400, [ann])
  /\ validate_email (normalize "ann@test.com") = true
  /\ Py.len "abc" < 6
  /\ serve (register env0 (JObj short)) [ann]
     = (error "Password must be at least 6 characters long" 400, [ann]).
Proof.
  intros bad_email short.
  split; [reflexivity|]. split.
  - apply (register_checks_email_then_password env0 [ann] bad_email
             "Ann" "ann.test.com" "abc");
      try discriminate; [repeat split; reflexivity | reflexivity].
  - split; [reflexivity|]. split; [reflexivity|].
    apply (register_checks_email_then_password env0 [ann] short
             "Ann" "ann@test.com" "abc");
      try discriminate; [repeat split; reflexivity | reflexivity | reflexivity].
Defined.

Lemma register_of_strings_never_fails_witness :
  (forall field, In field required_fields ->
     assoc field ann_registers = None
     \/ exists s, assoc field ann_registers = Some (JStr s))
  /\ (let code := status (fst (serve (register env0 (JObj ann_registers)) [ann])) in
      code = 201 \/ code = 400 \/ code = 409).
Proof.
  assert (Hstr : forall field, In field required_fields ->
            assoc field ann_registers = None
            \/ exists s, assoc field ann_registers = Some (JStr s)).
  { intros field [<- | [<- | [<- | []]]]; right; eexists; reflexivity. }
  split; [exact Hstr|].
  exact (register_of_strings_never_fails env0 [ann] ann_registers Hstr).
Defined.

Lemma unknown_user_is_not_found_witness :
  row_of [ann; bob] 7 = None
  /\ integer_min <= 7 <= integer_max
  /\ serve (get_profile 7) [ann; bob] = (error "User not found" 404, [ann; bob])
  /\ serve (add_credits 7 (JObj [("amount", JInt 0)])) [ann; bob]
     = (error "Invalid credit amount" 400, [ann; bob])
  /\ serve (upgrade_plan 7 (JObj [("plan_type", JStr "pro")])) [ann; bob]
     = (error "User not found" 404, [ann; bob])
  /\ row_of [ann; bob] (2 ^ 63) = None
  /\ integer_max < 2 ^ 63
  /\ serve (get_profile (2 ^ 63)) [ann; bob]
     = (error "Failed to get profile" 500, [ann; bob])
  /\ serve (check_credits (2 ^ 63)) [ann; bob]
     = (error "Failed to check credits" 500, [ann; bob]).
Proof.
  assert (Hin : integer_min <= 7 <= integer_max)
    by (vm_compute; split; discriminate).
  assert (Hout : integer_max < 2 ^ 63) by reflexivity.
  split; [reflexivity|]. split; [exact Hin|].
  destruct (unknown_user_is_not_found [ann; bob] 7 0 "pro" eq_refl)
    as [Hfound _].
  destruct (Hfound Hin) as (Hg & _ & _ & Ha & Hu).
  split; [exact Hg|]. split; [exact Ha|]. split; [exact Hu|].
  split; [reflexivity|]. split; [exact Hout|].
  destruct (unknown_user_is_not_found [ann; bob] (2 ^ 63) 0 "pro" eq_refl)
    as [_ Hraise].
  destruct (Hraise Hout) as (Hg' & Hc' & _).
  split; [exact Hg' | exact Hc'].
Defined.

Lemma body_must_be_an_object_witness :
  not_a_dict (JArr [JStr "ann@test.com"])
  /\ serve (login env0 (JArr [JStr "ann@test.com"])) [ann]
     = (error "Login failed" 500, [ann]).
Proof.
  split; [exact I|].
  destruct (body_must_be_an_object env0 [ann] 1 (JArr [JStr "ann@test.com"]) I)
    as (_ & Hl & _).
  exact Hl.
Defined.

